(** * skift: an sklearn-style adapter around a fastText classifier

    A shallow embedding of [skift/core.py] and the properties of its
    label bookkeeping, input validation, column extraction and option
    forwarding.

    Conventions of the embedding:
    - a Python [str] is a Rocq [string]; a character stands for the code
      point of the same number, so the strings covered are those whose code
      points are below 256;
    - a Python [int] is a [Z];
    - an exception is a value of [exn]; a computation that may raise returns
      a [result];
    - attributes of [self] that do not exist yet are [None] fields of the
      record [adapter];
    - the file system and the calls made to the external trainer are the
      record [world], threaded explicitly through [fit]. *)

From Stdlib Require Import ZArith QArith Ascii String.
From stdpp Require Import gmap strings list sorting.
From Equations Require Import Equations.

Local Open Scope Z_scope.
Local Open Scope string_scope.

(** ** Exceptions and results *)

Inductive exn : Type :=
| ValueError
| TypeError
| IndexError
| KeyError
| AttributeError
| NotFittedError
| TrainerError (msg : string).

Inductive result (A : Type) : Type :=
| Ok (a : A)
| Raise (e : exn).
Arguments Ok {A} a.
Arguments Raise {A} e.

Definition rbind {A B} (r : result A) (k : A -> result B) : result B :=
  match r with
  | Ok a => k a
  | Raise e => Raise e
  end.

Notation "x <~ r ; k" := (rbind r (fun x => k))
  (at level 100, r at next level, right associativity, only parsing).

(** [[f(x) for x in l]]: the elements are evaluated from left to right and
    the first exception ends the comprehension. *)
Fixpoint rmap {A B} (f : A -> result B) (l : list A) : result (list B) :=
  match l with
  | [] => Ok []
  | x :: l' => y <~ f x; ys <~ rmap f l'; Ok (y :: ys)
  end.

(** ** Python's [str(n)] and [int(s)] on decimal integers *)

Module PyStr.

(** The decimal digits of a non-negative integer, most significant first. *)
Equations? digits_of (n : Z) : list Z by wf (Z.to_nat n) lt :=
  digits_of n with Z_lt_dec n 10 := {
    | left _ := [n];
    | right _ := digits_of (n / 10) ++ [n mod 10] }.
Proof.
  assert (n / 10 < n) by (apply Z.div_lt; lia).
  assert (0 <= n / 10) by (apply Z.div_pos; lia).
  lia.
Qed.

Definition is_decimal_digit (d : Z) : Prop := 0 <= d <= 9.

(** The value of a sequence of digits read after [acc]. *)
Definition value_of (acc : Z) (ds : list Z) : Z :=
  foldl (fun a d => 10 * a + d) acc ds.

Definition digit_char (d : Z) : ascii := ascii_of_nat (48 + Z.to_nat d).

Definition is_digit (c : ascii) : bool :=
  let n := nat_of_ascii c in (48 <=? n)%nat && (n <=? 57)%nat.

Definition digit_value (c : ascii) : Z := Z.of_nat (nat_of_ascii c) - 48.

(** [str(n)], which is also what ['{}'.format(n)] inserts. *)
Definition str (n : Z) : string :=
  if (n <? 0)%Z
  then String "-" (string_of_list_ascii (digit_char <$> digits_of (- n)))
  else string_of_list_ascii (digit_char <$> digits_of n).

(** The characters [int] skips around a literal: the ASCII white space
    and, among the code points from 128 to 255, NEL and NBSP. *)
Definition is_space (c : ascii) : bool :=
  let n := nat_of_ascii c in
  ((9 <=? n)%nat && (n <=? 13)%nat) || (n =? 32)%nat
  || (n =? 133)%nat || (n =? 160)%nat.

(** The digits of a literal, read from left to right. [prev_digit] tells
    whether the character just read was a digit: an underscore is accepted
    only between two digits, and white space only after the last digit and up
    to the end of the string. *)
Fixpoint int_digits (prev_digit : bool) (acc : Z) (s : list ascii) : option Z :=
  match s with
  | [] => if prev_digit then Some acc else None
  | c :: s' =>
      if is_digit c then int_digits true (10 * acc + digit_value c) s'
      else if Ascii.eqb c "_" then
        if prev_digit then int_digits false acc s' else None
      else if prev_digit && forallb is_space s then Some acc
      else None
  end.

Fixpoint skip_spaces (s : list ascii) : list ascii :=
  match s with
  | c :: s' => if is_space c then skip_spaces s' else s
  | [] => []
  end.

(** [int(s)] for a string [s], in base ten. *)
Definition int (s : string) : result Z :=
  let body := skip_spaces (list_ascii_of_string s) in
  let '(negative, body) :=
    match body with
    | c :: rest =>
        if Ascii.eqb c "-" then (true, rest)
        else if Ascii.eqb c "+" then (false, rest)
        else (false, body)
    | [] => (false, body)
    end in
  match int_digits false 0 body with
  | Some v => Ok (if negative then - v else v)
  | None => Raise ValueError
  end.

(** [s[n:]] for [0 <= n]. *)
Fixpoint slice_from (n : nat) (s : string) : string :=
  match n, s with
  | O, _ => s
  | S n', String _ s' => slice_from n' s'
  | S _, EmptyString => EmptyString
  end.

End PyStr.

(** ** Python values, arrays and tables *)

(** The objects found in the cells of a table, as column labels and as
    option values. *)
Inductive pyobj : Type :=
| PyStr (s : string)
| PyInt (n : Z)
| PyNone.

Global Instance pyobj_eq_dec : EqDecision pyobj.
Proof. solve_decision. Defined.

(** Truth value of an object, as tested by [if obj:]. *)
Definition truthy (o : pyobj) : bool :=
  match o with
  | PyStr s => negb (String.eqb s "")
  | PyInt n => negb (n =? 0)%Z
  | PyNone => false
  end.

(** ['{}'.format(o)]. *)
Definition format_obj (o : pyobj) : string :=
  match o with
  | PyStr s => s
  | PyInt n => PyStr.str n
  | PyNone => "None"
  end.

Inductive byteorder : Type := LittleEndian | BigEndian.

(** Element types of arrays and of the columns of labeled tables. The host
    is little-endian, so numpy's native order is [LittleEndian]. *)
Inductive dtype : Type :=
| dt_object
| dt_unicode (order : byteorder) (width : nat)
| dt_bytes (width : nat)
| dt_bool
| dt_int (bits : nat)
| dt_float (bits : nat).

Global Instance byteorder_eq_dec : EqDecision byteorder.
Proof. solve_decision. Defined.
Global Instance dtype_eq_dec : EqDecision dtype.
Proof. solve_decision. Defined.

(** A fixed-width text type, of any width and byte order. *)
Definition is_fixed_width_text (d : dtype) : bool :=
  match d with
  | dt_unicode _ _ => true
  | _ => false
  end.

(** A two-dimensional numpy array, row by row. Every row of a numpy array
    has [nd_ncols] cells. *)
Record ndarray : Type := {
  nd_dtype : dtype;
  nd_ncols : nat;
  nd_rows : list (list pyobj) }.

(** A column of a pandas DataFrame. *)
Record column : Type := {
  col_label : pyobj;
  col_dtype : dtype;
  col_values : list pyobj }.

(** A pandas DataFrame: its columns in declared order. Every column of a
    DataFrame has [df_nrows] values. *)
Record dataframe : Type := {
  df_nrows : nat;
  df_columns : list column }.

(** What a caller may pass as [X]. *)
Inductive table : Type :=
| NdArray (a : ndarray)
| DataFrame (df : dataframe)
| PyList (rows : list (list pyobj)).

Definition n_rows (X : table) : nat :=
  match X with
  | NdArray a => length (nd_rows a)
  | DataFrame df => df_nrows df
  | PyList rows => length rows
  end.

(** A numpy array of integer labels of any rank: its shape and its elements
    in row-major order. *)
Record label_array : Type := {
  y_shape : list nat;
  y_data : list Z }.

(** Nested Python lists of integers. *)
#[warnings="-register-all"]
Inductive nested : Type :=
| Leaf (n : Z)
| Nest (l : list nested).

(** What a caller may pass as [y]. *)
Inductive labels : Type :=
| YArray (a : label_array)
| YList (l : nested).

(** What [X[...]] evaluates to: a one-dimensional array or a Series, or,
    when a DataFrame has several columns under the requested label, the
    DataFrame of those columns. *)
Inductive selection : Type :=
| Values (vs : list pyobj)
| SubFrame (cols : list column).

(** [for text in input_col]: iterating a DataFrame yields its column
    labels. *)
Definition iterate (s : selection) : list pyobj :=
  match s with
  | Values vs => vs
  | SubFrame cols => col_label <$> cols
  end.

(** [X[:, i]] on a two-dimensional array. *)
Definition nd_column (a : ndarray) (i : Z) : result selection :=
  let m := Z.of_nat (nd_ncols a) in
  if ((- m <=? i) && (i <? m))%Z
  then
    let j := Z.to_nat (if (i <? 0)%Z then i + m else i) in
    Ok (Values ((fun row => default PyNone (row !! j)) <$> nd_rows a))
  else Raise IndexError.

(** [X[lbl]] on a DataFrame. *)
Definition df_getitem (df : dataframe) (lbl : pyobj) : result selection :=
  match filter (fun c => col_label c = lbl) (df_columns df) with
  | [] => Raise KeyError
  | [c] => Ok (Values (col_values c))
  | cols => Ok (SubFrame cols)
  end.

(** ** The external collaborators *)

Definition score : Type := Q.

(** A trained fastText model: [predict(text, k)] returns the labels and
    their scores. *)
Record Model : Type := {
  ft_predict : pyobj -> Z -> result (list string * list score) }.

(** The file system, and the keyword arguments of each call made to the
    trainer, latest first. *)
Record world : Type := {
  files : gmap string string;
  trainer_calls : list (gmap string pyobj) }.

(** numpy's conversion [np.array], the trainer and the directory of the
    training files. [train_supervised] receives its keyword arguments and the
    file system it reads the training file from. *)
Class External : Type := {
  TEMP_DIR : string;
  np_array : table -> ndarray;
  np_array_y : nested -> label_array;
  train_supervised : gmap string pyobj -> gmap string string -> result Model }.

(** ** The adapter *)

(** The four classifier classes, with their locators. *)
Inductive variant : Type :=
| FirstCol
| IdxBased (input_ix : Z)
| FirstObj
| ColLblBased (input_col_lbl : string).

(** The attributes of [self]; [None] is an attribute that was never set. *)
Record adapter : Type := {
  cls : variant;
  kwargs : gmap string pyobj;
  classes_ : option (list Z);
  num_classes_ : option nat;
  class_labels_ : option (list string);
  temp_trainset_fpath : option string;
  model : option Model }.

(** [FtClassifierABC.__init__(self, **kwargs)]. *)
Definition FtClassifierABC_init (v : variant) (kw : gmap string pyobj) : adapter :=
  {| cls := v;
     kwargs := delete "input" kw;
     classes_ := None; num_classes_ := None; class_labels_ := None;
     temp_trainset_fpath := None; model := None |}.

Definition FirstColFtClassifier (kw : gmap string pyobj) : adapter :=
  FtClassifierABC_init FirstCol kw.

(** [IdxBasedFtClassifier.__init__] calls [super().__init__()] without
    keyword arguments. *)
Definition IdxBasedFtClassifier (input_ix : Z) (kw : gmap string pyobj) : adapter :=
  FtClassifierABC_init (IdxBased input_ix) ∅.

Definition FirstObjFtClassifier (kw : gmap string pyobj) : adapter :=
  FtClassifierABC_init FirstObj kw.

(** [ColLblBasedFtClassifier.__init__] calls [super().__init__()] without
    keyword arguments. *)
Definition ColLblBasedFtClassifier (input_col_lbl : string) (kw : gmap string pyobj) : adapter :=
  FtClassifierABC_init (ColLblBased input_col_lbl) ∅.

(** Construction of any of the four classes. *)
Definition construct (v : variant) (kw : gmap string pyobj) : adapter :=
  match v with
  | FirstCol => FirstColFtClassifier kw
  | IdxBased ix => IdxBasedFtClassifier ix kw
  | FirstObj => FirstObjFtClassifier kw
  | ColLblBased lbl => ColLblBasedFtClassifier lbl kw
  end.

Definition ALLOWED_DTYPES_ : list dtype := [dt_unicode LittleEndian 26; dt_object].

Definition check_dtype (a : ndarray) : result ndarray :=
  if negb (bool_decide (nd_dtype a ∈ ALLOWED_DTYPES_))
  then Raise ValueError
  else Ok a.

(** [X.dtype] on a DataFrame is looked up among the column labels: the
    attribute exists exactly when a column is labelled ['dtype'], and is then
    that column (or the frame of the columns of that label), not an element
    type. *)
Definition has_dtype_column (df : dataframe) : bool :=
  bool_decide (PyStr "dtype" ∈ col_label <$> df_columns df).

(** Whether [X.dtype] is a column of [X]. *)
Definition dtype_shadowed (X : table) : bool :=
  match X with
  | DataFrame df => has_dtype_column df
  | _ => false
  end.

(** [_validate_x]: an [X] without a [dtype] attribute is converted by
    [np.array] and validated again. When [X.dtype] is a column of a
    DataFrame, comparing it with the allowed types gives a column of
    booleans, which has no truth value: the membership test raises
    [ValueError]. *)
Definition _validate_x `{External} (X : table) : result ndarray :=
  match X with
  | NdArray a => check_dtype a
  | DataFrame df =>
      if has_dtype_column df then Raise ValueError
      else check_dtype (np_array X)
  | PyList _ => check_dtype (np_array X)
  end.

(** The array [_validate_x] examines, and its element type. *)
Definition as_array `{External} (X : table) : ndarray :=
  match X with
  | NdArray a => a
  | _ => np_array X
  end.

Definition element_type `{External} (X : table) : dtype := nd_dtype (as_array X).

Definition check_shape (a : label_array) : result label_array :=
  if negb (length (y_shape a) =? 1)%nat
  then Raise ValueError
  else Ok a.

(** [_validate_y]: a [y] without a [shape] attribute is converted by
    [np.array] and validated again. *)
Definition _validate_y `{External} (y : labels) : result label_array :=
  match y with
  | YArray a => check_shape a
  | YList l => check_shape (np_array_y l)
  end.

(** The rank of [y], as an array. *)
Definition rank `{External} (y : labels) : nat :=
  match y with
  | YArray a => length (y_shape a)
  | YList l => length (y_shape (np_array_y l))
  end.

(** [FirstObjFtClassifier._input_col]: the loop over [X.dtypes.items()]. *)
Fixpoint first_object_label (cols : list column) : pyobj :=
  match cols with
  | [] => PyNone
  | c :: cols' =>
      if bool_decide (col_dtype c = dt_object) then col_label c
      else first_object_label cols'
  end.

(** [_input_col], by class. A Python list accepts neither [X[:, i]] nor
    [X[lbl]] and has no [dtypes]; an array has no [dtypes] and cannot be
    indexed by a string; a DataFrame cannot look up the unhashable key
    [(slice, i)]. *)
Definition _input_col (a : adapter) (X : table) : result selection :=
  match cls a, X with
  | FirstCol, NdArray arr => nd_column arr 0
  | IdxBased ix, NdArray arr => nd_column arr ix
  | (FirstCol | IdxBased _), (DataFrame _ | PyList _) => Raise TypeError
  | FirstObj, DataFrame df =>
      let input_col_name := first_object_label (df_columns df) in
      if truthy input_col_name then df_getitem df input_col_name
      else Raise ValueError
  | FirstObj, (NdArray _ | PyList _) => Raise AttributeError
  | ColLblBased lbl, DataFrame df => df_getitem df (PyStr lbl)
  | ColLblBased _, NdArray _ => Raise IndexError
  | ColLblBased _, PyList _ => Raise TypeError
  end.

(** ** Label bookkeeping *)

(** Keeps one element of every run of equal neighbours. *)
Fixpoint dedup_adjacent (l : list Z) : list Z :=
  match l with
  | [] => []
  | x :: l' =>
      match l' with
      | y :: _ => if bool_decide (x = y) then dedup_adjacent l' else x :: dedup_adjacent l'
      | [] => [x]
      end
  end.

(** sklearn's [unique_labels] on one array of integers: numpy's [unique],
    which sorts and then drops repeated neighbours. *)
Definition unique_labels (y : list Z) : list Z :=
  dedup_adjacent (merge_sort Z.le y).

Definition LABEL_PREFIX : string := "__label__".

(** ['__label__{}'.format(lbl)]. *)
Definition label_of (lbl : Z) : string := LABEL_PREFIX ++ PyStr.str lbl.

(** [_clean_label]. *)
Definition _clean_label (ft_label : string) : result Z :=
  PyStr.int (PyStr.slice_from 9 ft_label).

Definition newline : string := String (ascii_of_nat 10) "".

(** [temp_dataset_fpath], for the number [rnd] drawn by [randint(1, 99999)].
    [TEMP_DIR] does not end with a separator. *)
Definition temp_dataset_fpath `{External} (rnd : Z) : string :=
  TEMP_DIR ++ "/" ++ "temp_ft_trainset_" ++ PyStr.str rnd ++ ".ft".

(** Modelled from the spec: [dump_xy_to_fasttext_format] of [skift/util.py],
    which is not among the sources. It creates the file anew and writes, for
    each example, the label prefix, the label, one space, the text and a
    newline. *)
Definition dump_xy_to_fasttext_format
    (input_col : selection) (y : list Z) (path : string)
    (fs : gmap string string) : gmap string string :=
  let line text lbl := label_of lbl ++ " " ++ format_obj text ++ newline in
  <[path := String.concat "" (zip_with line (iterate input_col) y)]> fs.

(** ** Methods that change [self] and the world *)

(** A method body: it reads and updates [self] and the world, and returns
    or raises. What it changed before raising stays changed. *)
Definition action (A : Type) : Type :=
  adapter * world -> (adapter * world) * result A.

Definition ret {A} (x : A) : action A := fun s => (s, Ok x).

Definition bind {A B} (m : action A) (k : A -> action B) : action B :=
  fun s =>
    match m s with
    | (s', Ok x) => k x s'
    | (s', Raise e) => (s', Raise e)
    end.

Notation "x <- m ;; k" := (bind m (fun x => k))
  (at level 100, m at next level, right associativity, only parsing).

Definition lift {A} (r : result A) : action A := fun s => (s, r).

Definition get_self : action adapter := fun s => (s, Ok (fst s)).

Definition set_self (f : adapter -> adapter) : action unit :=
  fun s => ((f (fst s), snd s), Ok tt).

Definition set_classes_ (v : list Z) (a : adapter) : adapter :=
  {| cls := cls a; kwargs := kwargs a;
     classes_ := Some v; num_classes_ := num_classes_ a;
     class_labels_ := class_labels_ a;
     temp_trainset_fpath := temp_trainset_fpath a; model := model a |}.

Definition set_num_classes_ (v : nat) (a : adapter) : adapter :=
  {| cls := cls a; kwargs := kwargs a;
     classes_ := classes_ a; num_classes_ := Some v;
     class_labels_ := class_labels_ a;
     temp_trainset_fpath := temp_trainset_fpath a; model := model a |}.

Definition set_class_labels_ (v : list string) (a : adapter) : adapter :=
  {| cls := cls a; kwargs := kwargs a;
     classes_ := classes_ a; num_classes_ := num_classes_ a;
     class_labels_ := Some v;
     temp_trainset_fpath := temp_trainset_fpath a; model := model a |}.

Definition set_temp_trainset_fpath (v : string) (a : adapter) : adapter :=
  {| cls := cls a; kwargs := kwargs a;
     classes_ := classes_ a; num_classes_ := num_classes_ a;
     class_labels_ := class_labels_ a;
     temp_trainset_fpath := Some v; model := model a |}.

Definition set_model (v : Model) (a : adapter) : adapter :=
  {| cls := cls a; kwargs := kwargs a;
     classes_ := classes_ a; num_classes_ := num_classes_ a;
     class_labels_ := class_labels_ a;
     temp_trainset_fpath := temp_trainset_fpath a; model := Some v |}.

(** [self] once [fit] has recorded the classes of [y] and the path of the
    training file. *)
Definition with_registry (y : list Z) (path : string) (a : adapter) : adapter :=
  let classes := unique_labels y in
  set_temp_trainset_fpath path
    (set_class_labels_ (label_of <$> classes)
       (set_num_classes_ (length classes) (set_classes_ classes a))).

(** The keyword arguments of [train_supervised(input=path, **kw)]. *)
Definition trainer_args (path : string) (kw : gmap string pyobj) : gmap string pyobj :=
  <["input" := PyStr path]> kw.

(** Writing the training file. *)
Definition dump (input_col : selection) (y : list Z) (path : string) : action unit :=
  fun s =>
    let w := snd s in
    ((fst s,
      {| files := dump_xy_to_fasttext_format input_col y path (files w);
         trainer_calls := trainer_calls w |}),
     Ok tt).

(** [train_supervised(input=path, **kw)]. Python refuses a call that gives
    [input] twice; otherwise the trainer is called with the merged
    keyword arguments, and the call is recorded. *)
Definition call_train_supervised `{External}
    (path : string) (kw : gmap string pyobj) : action Model :=
  fun s =>
    if bool_decide (is_Some (kw !! "input")) then (s, Raise TypeError)
    else
      let w := snd s in
      let args := trainer_args path kw in
      ((fst s, {| files := files w; trainer_calls := args :: trainer_calls w |}),
       train_supervised args (files w)).

(** [fit(X, y)], where [rnd] is the number [randint] returns. The value
    returned on success is [self], the first component of the final state. *)
Definition fit `{External} (X : table) (y : labels) (rnd : Z) : action unit :=
  _ <- lift (_validate_x X);;
  y <- lift (_validate_y y);;
  let classes := unique_labels (y_data y) in
  _ <- set_self (set_classes_ classes);;
  _ <- set_self (set_num_classes_ (length classes));;
  _ <- set_self (set_class_labels_ (label_of <$> classes));;
  let path := temp_dataset_fpath rnd in
  _ <- set_self (set_temp_trainset_fpath path);;
  self <- get_self;;
  input_col <- lift (_input_col self X);;
  _ <- dump input_col (y_data y) path;;
  m <- call_train_supervised path (kwargs self);;
  set_self (set_model m).

(** ** Prediction *)

(** Reading an attribute of [self]. *)
Definition attr {A} (field : option A) : result A :=
  match field with
  | Some v => Ok v
  | None => Raise AttributeError
  end.

(** [check_is_fitted(self, ['model'])]. *)
Definition check_is_fitted (a : adapter) : result Model :=
  match model a with
  | Some m => Ok m
  | None => Raise NotFittedError
  end.

(** [_predict(X, k)]. *)
Definition _predict `{External} (a : adapter) (X : table) (k : Z)
    : result (list (list string * list score)) :=
  m <~ check_is_fitted a;
  _ <~ _validate_x X;
  input_col <~ _input_col a X;
  rmap (fun text => ft_predict m text k) (iterate input_col).

(** [seq[0]]. *)
Definition first {A} (l : list A) : result A :=
  match l with
  | x :: _ => Ok x
  | [] => Raise IndexError
  end.

(** [predict(X)]. *)
Definition predict `{External} (a : adapter) (X : table) : result (list Z) :=
  rs <~ _predict a X 1;
  rmap (fun res => lbl <~ first (fst res); _clean_label lbl) rs.

(** [l.index(x)]. *)
Fixpoint index_of (l : list string) (x : string) : result nat :=
  match l with
  | [] => Raise ValueError
  | y :: l' => if bool_decide (y = x) then Ok O else i <~ index_of l' x; Ok (S i)
  end.

(** [sorted(items, key=...)] on items already paired with their keys: a
    stable sort, so items with equal keys keep their order. *)
Fixpoint insert_by_key {A} (k : nat) (v : A) (l : list (nat * A)) : list (nat * A) :=
  match l with
  | [] => [(k, v)]
  | (k', v') :: l' =>
      if (k <=? k')%nat then (k, v) :: l else (k', v') :: insert_by_key k v l'
  end.

Fixpoint sort_by_key {A} (l : list (nat * A)) : list (nat * A) :=
  match l with
  | [] => []
  | (k, v) :: l' => insert_by_key k v (sort_by_key l')
  end.

(** The key function of [_format_probas],
    [lambda x: self.class_labels_.index(x[0])], returning the pair with its
    key. *)
Definition keyed_pair (a : adapter) (x : string * score)
    : result (nat * (string * score)) :=
  registry <~ attr (class_labels_ a);
  i <~ index_of registry (fst x);
  Ok (i, x).

(** [_format_probas(result)]. [sorted] computes the key of every pair
    before it sorts. *)
Definition _format_probas (a : adapter) (res : list string * list score)
    : result (list score) :=
  let lbl_prob_pairs := zip (fst res) (snd res) in
  keyed <~ rmap (keyed_pair a) lbl_prob_pairs;
  Ok ((fun kx => snd (snd kx)) <$> sort_by_key keyed).

(** [predict_proba(X)]. The argument [self.num_classes_] is evaluated
    before [_predict] is entered. *)
Definition predict_proba `{External} (a : adapter) (X : table)
    : result (list (list score)) :=
  k <~ attr (num_classes_ a);
  rs <~ _predict a X (Z.of_nat k);
  rmap (_format_probas a) rs.

(** ** Vocabulary of the statements *)

(** The labels of [y] once it is an array. *)
Definition label_data `{External} (y : labels) : list Z :=
  y_data (match y with YArray a => a | YList l => np_array_y l end).

(** A DataFrame is well formed when its column labels are distinct and its
    columns have one value per row. Arrays and lists have no side condition. *)
Definition valid_table (X : table) : Prop :=
  match X with
  | DataFrame df =>
      NoDup (col_label <$> df_columns df) /\
      Forall (fun c => length (col_values c) = df_nrows df) (df_columns df)
  | _ => True
  end.



(** The position of a label in a registry, [0] for a label that is not
    there. *)
Definition position (registry : list string) (lbl : string) : nat :=
  match index_of registry lbl with
  | Ok i => i
  | Raise _ => 0
  end.

(** Pairs ordered by their keys. *)
Definition key_le {A} (p q : nat * A) : Prop := (fst p <= fst q)%nat.

(** ** Sample collaborators and inputs *)

Module Sample.

(** A conversion to arrays of objects. *)
Definition to_object_array (X : table) : ndarray :=
  match X with
  | NdArray a => a
  | DataFrame df =>
      {| nd_dtype := dt_object;
         nd_ncols := length (df_columns df);
         nd_rows :=
           (fun i => (fun c => default PyNone (col_values c !! i)) <$> df_columns df)
             <$> seq 0 (df_nrows df) |}
  | PyList rows =>
      {| nd_dtype := dt_object;
         nd_ncols := match rows with r :: _ => length r | [] => 0 end;
         nd_rows := rows |}
  end.

Definition leaf_value (x : nested) : Z :=
  match x with
  | Leaf n => n
  | Nest _ => 0
  end.

Definition leaves (x : nested) : list Z :=
  match x with
  | Leaf n => [n]
  | Nest r => leaf_value <$> r
  end.

(** A conversion of lists nested once or twice. *)
Definition to_label_array (l : nested) : label_array :=
  match l with
  | Leaf n => {| y_shape := []; y_data := [n] |}
  | Nest xs =>
      match xs with
      | Nest r :: _ =>
          {| y_shape := [length xs; length r]; y_data := concat (leaves <$> xs) |}
      | _ => {| y_shape := [length xs]; y_data := leaf_value <$> xs |}
      end
  end.

(** A model of two classes that ranks both labels for every text. *)
Definition ranking (text : pyobj) : list (string * score) :=
  if bool_decide (text = PyStr "good")
  then [(label_of 1, 9 # 10); (label_of 0, 1 # 10)]%Q
  else [(label_of 0, 8 # 10); (label_of 1, 2 # 10)]%Q.

Definition two_class_model : Model :=
  {| ft_predict text k :=
       let top := take (Z.to_nat k) (ranking text) in
       Ok (fst <$> top, snd <$> top) |}.

Definition env : External :=
  {| TEMP_DIR := "/home/user/.temp";
     np_array := to_object_array;
     np_array_y := to_label_array;
     train_supervised _ _ := Ok two_class_model |}.

Definition no_world : world := {| files := ∅; trainer_calls := [] |}.

(** [X = [["a", "good"], ["b", "bad"]]] as an array of objects. *)
Definition X_array : table :=
  NdArray {| nd_dtype := dt_object; nd_ncols := 2;
             nd_rows := [[PyStr "a"; PyStr "good"]; [PyStr "b"; PyStr "bad"]] |}.

(** The same rows as an array of strings of at most four characters. *)
Definition X_text_array : table :=
  NdArray {| nd_dtype := dt_unicode LittleEndian 4; nd_ncols := 2;
             nd_rows := [[PyStr "a"; PyStr "good"]; [PyStr "b"; PyStr "bad"]] |}.

(** [pd.DataFrame({"text": ["good", "bad", "good"], "other": [1, 2, 3]})]. *)
Definition X_frame : table :=
  DataFrame {| df_nrows := 3;
               df_columns :=
                 [ {| col_label := PyStr "text"; col_dtype := dt_object;
                      col_values := [PyStr "good"; PyStr "bad"; PyStr "good"] |};
                   {| col_label := PyStr "other"; col_dtype := dt_int 64;
                      col_values := [PyInt 1; PyInt 2; PyInt 3] |} ] |}.

(** [pd.DataFrame([["good"], ["bad"]])]: one column of objects, which
    pandas labels [0]. *)
Definition X_unnamed_frame : table :=
  DataFrame {| df_nrows := 2;
               df_columns :=
                 [ {| col_label := PyInt 0; col_dtype := dt_object;
                      col_values := [PyStr "good"; PyStr "bad"] |} ] |}.

Definition y_flat : labels := YArray {| y_shape := [2%nat]; y_data := [1; 0] |}.

Definition y_frame : labels := YArray {| y_shape := [3%nat]; y_data := [1; 0; 1] |}.

(** [y = np.array([[1, 0], [0, 1]])]. *)
Definition y_matrix : labels := YArray {| y_shape := [2%nat; 2%nat]; y_data := [1; 0; 0; 1] |}.

(** An adapter after a successful fit on the labels 0 and 1. *)
Definition fitted (v : variant) (m : Model) : adapter :=
  {| cls := v; kwargs := ∅;
     classes_ := Some [0; 1]; num_classes_ := Some 2%nat;
     class_labels_ := Some [label_of 0; label_of 1];
     temp_trainset_fpath := Some "/home/user/.temp/temp_ft_trainset_7.ft";
     model := Some m |}.



(** [pd.DataFrame({"dtype": ["good", "bad"]})]. *)
Definition X_dtype_frame : table :=
  DataFrame {| df_nrows := 2;
               df_columns :=
                 [ {| col_label := PyStr "dtype"; col_dtype := dt_object;
                      col_values := [PyStr "good"; PyStr "bad"] |} ] |}.

(** A trainer that fails. *)
Definition failing_env : External :=
  {| TEMP_DIR := "/home/user/.temp";
     np_array := to_object_array;
     np_array_y := to_label_array;
     train_supervised _ _ := Raise (TrainerError "cannot open the training file") |}.

(** A model that refuses a text that is not a string. *)
Definition strict_model : Model :=
  {| ft_predict text k :=
       match text with
       | PyStr _ => ft_predict two_class_model text k
       | _ => Raise AttributeError
       end |}.

(** [X = [["a", "good"], ["b", 3]]] as an array of objects. *)
Definition X_mixed : table :=
  NdArray {| nd_dtype := dt_object; nd_ncols := 2;
             nd_rows := [[PyStr "a"; PyStr "good"]; [PyStr "b"; PyInt 3]] |}.

(** An array of objects with two columns and no row. *)
Definition X_no_rows : table :=
  NdArray {| nd_dtype := dt_object; nd_ncols := 2; nd_rows := [] |}.

Definition y_other : labels := YArray {| y_shape := [2%nat]; y_data := [7; 5] |}.

End Sample.

(** * Properties *)

(** ** Decimal strings *)

Module PyStrFacts.
Import PyStr.

Lemma digits_of_digits n : 0 <= n -> Forall is_decimal_digit (digits_of n).
Proof.
  funelim (digits_of n); intros Hn.
  - repeat constructor; lia.
  - apply Forall_app; split.
    + match goal with IH : _ -> Forall _ (digits_of _) |- _ => apply IH end.
      apply Z.div_pos; lia.
    + repeat constructor; [apply Z.mod_pos_bound; lia|].
      pose proof (Z.mod_pos_bound n 10); lia.
Qed.

Lemma digits_of_nonempty n : digits_of n <> [].
Proof.
  funelim (digits_of n); [discriminate|].
  intros Happ. apply app_eq_nil in Happ as [_ ?]. discriminate.
Qed.

Lemma value_of_digits_of n : 0 <= n -> value_of 0 (digits_of n) = n.
Proof.
  funelim (digits_of n); intros Hn.
  - unfold value_of; simpl. lia.
  - unfold value_of in *. rewrite foldl_app; simpl.
    match goal with IH : _ -> foldl _ _ (digits_of _) = _ |- _ => rewrite IH end.
    + pose proof (Z.div_mod n 10); lia.
    + apply Z.div_pos; lia.
Qed.

Lemma digit_cases d : is_decimal_digit d ->
  d = 0 \/ d = 1 \/ d = 2 \/ d = 3 \/ d = 4 \/
  d = 5 \/ d = 6 \/ d = 7 \/ d = 8 \/ d = 9.
Proof. unfold is_decimal_digit. lia. Qed.

Ltac each_digit H :=
  apply digit_cases in H;
  repeat (destruct H as [H | H]); subst; vm_compute; try reflexivity; auto.

Lemma digit_char_is_digit d : is_decimal_digit d -> is_digit (digit_char d) = true.
Proof. intros H. each_digit H. Qed.

Lemma digit_char_value d : is_decimal_digit d -> digit_value (digit_char d) = d.
Proof. intros H. each_digit H. Qed.

Lemma digit_char_not_space d : is_decimal_digit d -> is_space (digit_char d) = false.
Proof. intros H. each_digit H. Qed.

Lemma digit_char_not_sign d :
  is_decimal_digit d ->
  Ascii.eqb (digit_char d) "-" = false /\ Ascii.eqb (digit_char d) "+" = false.
Proof. intros H. each_digit H. Qed.

Lemma int_digits_digit d b acc s : is_decimal_digit d ->
  int_digits b acc (digit_char d :: s) = int_digits true (10 * acc + d) s.
Proof.
  intros Hd.
  change (int_digits b acc (digit_char d :: s)) with
    (if is_digit (digit_char d)
     then int_digits true (10 * acc + digit_value (digit_char d)) s
     else if Ascii.eqb (digit_char d) "_" then
            if b then int_digits false acc s else None
          else if b && forallb is_space (digit_char d :: s) then Some acc
          else None).
  by rewrite digit_char_is_digit, digit_char_value.
Qed.

Lemma int_digits_all_digits ds : Forall is_decimal_digit ds -> ds <> [] ->
  forall b acc, int_digits b acc (digit_char <$> ds) = Some (value_of acc ds).
Proof.
  induction 1 as [|d ds Hd Hds IH]; [congruence|].
  intros _ b acc. rewrite fmap_cons, int_digits_digit by assumption.
  destruct ds as [|d' ds'].
  - reflexivity.
  - rewrite IH by discriminate. reflexivity.
Qed.

(** [int] reads back what [str] prints for a non-negative integer. *)
Lemma int_of_digits n : 0 <= n ->
  int_digits false 0 (digit_char <$> digits_of n) = Some n.
Proof.
  intros Hn.
  rewrite int_digits_all_digits
    by auto using digits_of_digits, digits_of_nonempty.
  f_equal. by apply value_of_digits_of.
Qed.

Lemma digits_head n : 0 <= n ->
  exists d ds, is_decimal_digit d /\ digits_of n = d :: ds.
Proof.
  intros Hn. pose proof (digits_of_digits n Hn) as Hall.
  pose proof (digits_of_nonempty n) as Hne.
  destruct (digits_of n) as [|d ds]; [congruence|].
  exists d, ds. split; [|reflexivity]. by inversion Hall.
Qed.

Lemma skip_spaces_digit d s : is_decimal_digit d ->
  skip_spaces (digit_char d :: s) = digit_char d :: s.
Proof.
  intros Hd.
  change (skip_spaces (digit_char d :: s)) with
    (if is_space (digit_char d) then skip_spaces s else digit_char d :: s).
  by rewrite digit_char_not_space.
Qed.

Lemma int_str n : int (str n) = Ok n.
Proof.
  unfold int, str. destruct (Z.ltb_spec n 0) as [Hneg|Hpos].
  - cbn [list_ascii_of_string]. rewrite list_ascii_of_string_of_list_ascii.
    change (skip_spaces ("-"%char :: ?l)) with ("-"%char :: l).
    cbv beta iota zeta. rewrite Ascii.eqb_refl. cbv beta iota zeta.
    rewrite int_of_digits by lia. f_equal. lia.
  - rewrite list_ascii_of_string_of_list_ascii.
    pose proof (int_of_digits n Hpos) as Hint.
    destruct (digits_head n Hpos) as (d & ds & Hd & Heq).
    rewrite Heq in *. rewrite fmap_cons in *.
    rewrite skip_spaces_digit by assumption.
    cbv beta iota zeta.
    destruct (digit_char_not_sign d Hd) as [-> ->].
    cbv beta iota zeta. rewrite Hint. reflexivity.
Qed.

Lemma str_inj : Inj (=) (=) str.
Proof.
  intros n m Heq. pose proof (int_str n) as Hn.
  rewrite Heq, int_str in Hn. congruence.
Qed.

End PyStrFacts.

Example str_examples :
  PyStr.str 0 = "0" /\ PyStr.str 1207 = "1207" /\ PyStr.str (-35) = "-35".
Proof. repeat split; reflexivity. Qed.

Example int_examples :
  PyStr.int "42" = Ok 42 /\ PyStr.int " -7 " = Ok (-7) /\
  PyStr.int "1_000" = Ok 1000 /\ PyStr.int "+007" = Ok 7 /\
  PyStr.int "1__0" = Raise ValueError /\ PyStr.int "" = Raise ValueError /\
  PyStr.int "_1" = Raise ValueError /\ PyStr.int "1_" = Raise ValueError /\
  PyStr.int "- 1" = Raise ValueError /\ PyStr.int "1 2" = Raise ValueError /\
  PyStr.int "neg" = Raise ValueError.
Proof. repeat split; reflexivity. Qed.

(** ** Decoding labels *)

(** C10: decoding is a left inverse of the encoding used at fit time: for
    every integer label [n], [_clean_label] applied to the prefix followed by
    [str(n)] gives [n] back, and what it drops, nine characters, is exactly
    the prefix. *)
Theorem clean_label_label_of (n : Z) :
  String.length LABEL_PREFIX = 9%nat /\
  PyStr.slice_from 9 (label_of n) = PyStr.str n /\
  _clean_label (label_of n) = Ok n.
Proof.
  split; [reflexivity|]. split; [reflexivity|].
  unfold _clean_label, label_of, LABEL_PREFIX. simpl PyStr.slice_from.
  apply PyStrFacts.int_str.
Qed.

(** ** Validation of the inputs *)

Section Validation.
Context `{External}.

Lemma check_dtype_spec a :
  check_dtype a =
    if bool_decide (nd_dtype a = dt_unicode LittleEndian 26 \/ nd_dtype a = dt_object)
    then Ok a else Raise ValueError.
Proof.
  unfold check_dtype, ALLOWED_DTYPES_.
  destruct (decide (nd_dtype a = dt_unicode LittleEndian 26 \/ nd_dtype a = dt_object))
    as [Hd|Hd].
  - rewrite (bool_decide_eq_true_2 _ Hd).
    rewrite bool_decide_eq_true_2; [reflexivity|].
    rewrite !elem_of_cons. tauto.
  - rewrite (bool_decide_eq_false_2 _ Hd).
    rewrite bool_decide_eq_false_2; [reflexivity|].
    rewrite !elem_of_cons, elem_of_nil. tauto.
Qed.

Lemma validate_x_as_array X :
  dtype_shadowed X = false -> _validate_x X = check_dtype (as_array X).
Proof. destruct X; cbn; [done| |done]. by intros ->. Qed.

(** A DataFrame with a column labelled ['dtype'] is refused, whatever its
    element type. *)
Lemma validate_x_shadowed X :
  dtype_shadowed X = true -> _validate_x X = Raise ValueError.
Proof. destruct X; cbn; [done| |done]. by intros ->. Qed.

Lemma validate_x_raises X e : _validate_x X = Raise e -> e = ValueError.
Proof.
  destruct (dtype_shadowed X) eqn:Hs.
  - rewrite validate_x_shadowed by done. congruence.
  - rewrite validate_x_as_array by done. unfold check_dtype.
    destruct (negb _); congruence.
Qed.

Lemma validate_x_bad_dtype X :
  element_type X <> dt_unicode LittleEndian 26 -> element_type X <> dt_object ->
  _validate_x X = Raise ValueError.
Proof.
  intros Htext Hobj. destruct (dtype_shadowed X) eqn:Hs.
  - by apply validate_x_shadowed.
  - rewrite validate_x_as_array, check_dtype_spec by done.
    rewrite bool_decide_eq_false_2; [done|]. unfold element_type in *. tauto.
Qed.

Lemma validate_y_rank y :
  _validate_y y =
    if negb (rank y =? 1)%nat then Raise ValueError
    else Ok (match y with YArray a => a | YList l => np_array_y l end).
Proof. by destruct y. Qed.

(** C4, as the code has it: on an [X] whose [dtype] attribute is not one of
    its own columns (an array, a list, or a DataFrame without a column
    labelled ['dtype']), [_validate_x] accepts [X] exactly when its element
    type is the generic object type or the text type of 26 characters in
    little-endian order, and returns the array then; for every other element
    type, the other widths of text among them, it raises [ValueError]. *)
Theorem validate_x_accepts_exactly (X : table) :
  dtype_shadowed X = false ->
  _validate_x X =
    if bool_decide (element_type X = dt_unicode LittleEndian 26 \/
                    element_type X = dt_object)
    then Ok (as_array X)
    else Raise ValueError.
Proof. intros Hs. rewrite validate_x_as_array by done. apply check_dtype_spec. Qed.

End Validation.

(** C4, as stated, fails: an array of strings of at most four characters
    has a fixed-width text type and is refused. *)
Lemma validate_x_refuses_short_text :
  ~ (forall (E : External) (X : table),
       is_fixed_width_text (element_type X) = true \/ element_type X = dt_object ->
       exists a, _validate_x X = Ok a).
Proof.
  intros Hclaim.
  destruct (Hclaim Sample.env Sample.X_text_array) as [a Ha].
  - left. reflexivity.
  - discriminate Ha.
Qed.

(** ** Fitting *)

Section Fit.
Context `{External}.

Lemma input_col_with_registry a ys path X :
  _input_col (with_registry ys path a) X = _input_col a X.
Proof. reflexivity. Qed.

(** [fit], case by case. *)
Lemma fit_cases X y rnd a w :
  fit X y rnd (a, w) =
    match _validate_x X with
    | Raise e => ((a, w), Raise e)
    | Ok _ =>
        match _validate_y y with
        | Raise e => ((a, w), Raise e)
        | Ok ya =>
            let path := temp_dataset_fpath rnd in
            let a2 := with_registry (y_data ya) path a in
            match _input_col a X with
            | Raise e => ((a2, w), Raise e)
            | Ok col =>
                let fs := dump_xy_to_fasttext_format col (y_data ya) path (files w) in
                if bool_decide (is_Some (kwargs a !! "input"))
                then ((a2, {| files := fs; trainer_calls := trainer_calls w |}),
                      Raise TypeError)
                else
                  let args := trainer_args path (kwargs a) in
                  let w2 := {| files := fs; trainer_calls := args :: trainer_calls w |} in
                  match train_supervised args fs with
                  | Raise e => ((a2, w2), Raise e)
                  | Ok m => ((set_model m a2, w2), Ok tt)
                  end
            end
        end
    end.
Proof.
  unfold fit, bind, lift, set_self, get_self, dump, call_train_supervised.
  destruct (_validate_x X); [|reflexivity].
  destruct (_validate_y y) as [ya|]; [|reflexivity].
  cbn [fst snd]. fold (with_registry (y_data ya) (temp_dataset_fpath rnd) a).
  rewrite input_col_with_registry.
  destruct (_input_col a X); [|reflexivity].
  cbn [fst snd kwargs with_registry set_temp_trainset_fpath set_class_labels_
       set_num_classes_ set_classes_ files trainer_calls].
  destruct (bool_decide _); [reflexivity|].
  destruct (train_supervised _ _); reflexivity.
Qed.

(** C8: when [y] is not one-dimensional, [fit] raises [ValueError] and
    leaves [self] and the world as they were: no training file is written
    and the trainer is not called. *)
Theorem fit_rejects_wrong_rank (a : adapter) (w : world) (X : table) (y : labels)
    (rnd : Z) :
  rank y <> 1%nat ->
  fit X y rnd (a, w) = ((a, w), Raise ValueError).
Proof.
  intros Hrank. rewrite fit_cases.
  destruct (_validate_x X) eqn:Hx.
  - rewrite validate_y_rank.
    destruct (Nat.eqb_spec (rank y) 1); [contradiction|reflexivity].
  - by rewrite (validate_x_raises _ _ Hx).
Qed.

Lemma construct_kwargs_no_input v kw : kwargs (construct v kw) !! "input" = None.
Proof. destruct v; cbn; apply lookup_delete_eq. Qed.

(** C9: whatever the options given at construction, the stored options have
    no ['input'] key, [fit] leaves them as they are, and every call [fit]
    makes to the trainer carries under ['input'] the path the adapter chose
    itself; a [fit] that returns has made exactly one such call. *)
Theorem reserved_input_key_never_forwarded
    (v : variant) (kw : gmap string pyobj) (X : table) (y : labels) (rnd : Z)
    (w : world) :
  let a := construct v kw in
  let out := fit X y rnd (a, w) in
  let args := trainer_args (temp_dataset_fpath rnd) (kwargs a) in
  kwargs a !! "input" = None /\
  kwargs (fst (fst out)) = kwargs a /\
  args !! "input" = Some (PyStr (temp_dataset_fpath rnd)) /\
  match snd out with
  | Ok _ => trainer_calls (snd (fst out)) = args :: trainer_calls w
  | Raise _ =>
      trainer_calls (snd (fst out)) = trainer_calls w \/
      trainer_calls (snd (fst out)) = args :: trainer_calls w
  end.
Proof.
  intros a out args. subst out.
  pose proof (construct_kwargs_no_input v kw) as Hno. fold a in Hno.
  split; [exact Hno|].
  split; [|split; [apply lookup_insert_eq|]];
    rewrite fit_cases;
    (destruct (_validate_x X); [|cbn; auto]);
    (destruct (_validate_y y) as [ya|]; [|cbn; auto]);
    cbv zeta;
    (destruct (_input_col a X); [|cbn; auto]);
    rewrite bool_decide_eq_false_2
      by (rewrite Hno; intros [? ?]; discriminate);
    (destruct (train_supervised _ _); cbn; auto).
Qed.

(** Options given to the two classes that inherit the constructor reach the
    trainer unchanged, the reserved key apart. *)
Lemma base_constructor_keeps_options v kw k :
  v = FirstCol \/ v = FirstObj -> k <> "input" ->
  kwargs (construct v kw) !! k = kw !! k.
Proof.
  intros [-> | ->] Hk; cbn; by rewrite lookup_delete_ne.
Qed.

(** The two classes with a locator drop every option. *)
Lemma locator_constructor_drops_options v kw :
  (exists ix, v = IdxBased ix) \/ (exists lbl, v = ColLblBased lbl) ->
  kwargs (construct v kw) = ∅.
Proof.
  intros [[ix ->] | [lbl ->]]; cbn; apply delete_empty.
Qed.

End Fit.

(** ** Options and the trainer *)

Section Options.
Context `{External}.

(** A [fit] that returns from an adapter with a locator has called the
    trainer with the training-file path and nothing else. *)
Lemma locator_fit_forwards_nothing v kw X y rnd w :
  (exists ix, v = IdxBased ix) \/ (exists lbl, v = ColLblBased lbl) ->
  let out := fit X y rnd (construct v kw, w) in
  snd out = Ok tt ->
  trainer_calls (snd (fst out)) =
    {["input" := PyStr (temp_dataset_fpath rnd)]} :: trainer_calls w.
Proof.
  intros Hv out. subst out. rewrite fit_cases.
  rewrite (locator_constructor_drops_options v kw Hv).
  destruct (_validate_x X); [|discriminate].
  destruct (_validate_y y) as [ya|]; [|discriminate].
  cbv zeta. destruct (_input_col _ X); [|discriminate].
  rewrite bool_decide_eq_false_2
    by (rewrite lookup_empty; intros [? ?]; discriminate).
  destruct (train_supervised _ _); [|discriminate].
  intros _. reflexivity.
Qed.

End Options.

(** C3 fails on the two classes with a locator: the option [epoch=5] given
    to [IdxBasedFtClassifier(1, epoch=5)] is not among the keyword arguments
    of the call [fit] makes to the trainer, which are the training-file path
    alone. *)
Theorem idx_based_drops_options :
  let kw : gmap string pyobj := {["epoch" := PyInt 5]} in
  let out := @fit Sample.env Sample.X_array Sample.y_flat 7
               (IdxBasedFtClassifier 1 kw, Sample.no_world) in
  kw !! "epoch" = Some (PyInt 5) /\
  snd out = Ok tt /\
  exists args,
    trainer_calls (snd (fst out)) = [args] /\
    args = {["input" := PyStr (@temp_dataset_fpath Sample.env 7)]} /\
    args !! "epoch" = None.
Proof.
  intros kw out.
  assert (Hout : snd out = Ok tt).
  { subst out. rewrite fit_cases. unfold IdxBasedFtClassifier.
    cbn [FtClassifierABC_init kwargs]. rewrite delete_empty.
    rewrite bool_decide_eq_false_2
      by (rewrite lookup_empty; intros [? ?]; discriminate).
    reflexivity. }
  split; [apply lookup_singleton_eq|]. split; [exact Hout|].
  eexists. split; [|split; [reflexivity|]].
  - apply (@locator_fit_forwards_nothing Sample.env (IdxBased 1) kw);
      [left; by eexists | exact Hout].
  - by rewrite lookup_singleton_ne.
Qed.

(** ** Prediction before fitting *)

Section Unfitted.
Context `{External}.

(** A [fit] that raises does not set the model. *)
Lemma fit_failure_keeps_model X y rnd a w e :
  snd (fit X y rnd (a, w)) = Raise e ->
  model (fst (fst (fit X y rnd (a, w)))) = model a.
Proof.
  rewrite fit_cases.
  destruct (_validate_x X); [|reflexivity].
  destruct (_validate_y y) as [ya|]; [|reflexivity].
  cbv zeta. destruct (_input_col a X); [|reflexivity].
  destruct (bool_decide _); [reflexivity|].
  destruct (train_supervised _ _); [discriminate|reflexivity].
Qed.

Lemma predict_without_model a X : model a = None -> predict a X = Raise NotFittedError.
Proof. intros Hm. unfold predict, _predict, check_is_fitted. by rewrite Hm. Qed.

(** C7 holds for [predict] and fails for [predict_proba]: on an adapter
    that was just constructed, of any of the four classes, [predict] raises
    [NotFittedError], and [predict_proba] raises [AttributeError], because
    it reads [num_classes_] before the check is made. *)
Theorem unfitted_predict_proba_raises_attribute_error
    (v : variant) (kw : gmap string pyobj) (X : table) :
  predict (construct v kw) X = Raise NotFittedError /\
  predict_proba (construct v kw) X = Raise AttributeError.
Proof. destruct v; split; reflexivity. Qed.

End Unfitted.

(** ** Extraction of the input column *)

Lemma first_object_label_none cols :
  Forall (fun c => col_dtype c <> dt_object) cols ->
  first_object_label cols = PyNone.
Proof.
  induction 1 as [|c cols Hc _ IH]; [reflexivity|].
  cbn. by rewrite bool_decide_eq_false_2.
Qed.

(** Without a column of objects, the extraction raises [ValueError]. *)
Lemma first_obj_no_object_column kw df :
  Forall (fun c => col_dtype c <> dt_object) (df_columns df) ->
  _input_col (FirstObjFtClassifier kw) (DataFrame df) = Raise ValueError.
Proof. intros Hall. cbn. by rewrite first_object_label_none. Qed.

(** C6 fails on a table whose first column of objects is labelled [0], as
    pandas labels the columns of [pd.DataFrame([["good"], ["bad"]])]: the
    column exists and the extraction raises [ValueError]. *)
Theorem first_object_column_labelled_zero_is_refused :
  let df := {| df_nrows := 2;
               df_columns :=
                 [ {| col_label := PyInt 0; col_dtype := dt_object;
                      col_values := [PyStr "good"; PyStr "bad"] |} ] |} in
  Exists (fun c => col_dtype c = dt_object) (df_columns df) /\
  _input_col (FirstObjFtClassifier ∅) (DataFrame df) = Raise ValueError.
Proof. split; [by constructor | reflexivity]. Qed.

(** ** Comprehensions and lookups *)

Lemma rmap_Ok {A B} (f : A -> result B) l ys :
  rmap f l = Ok ys <-> Forall2 (fun x y => f x = Ok y) l ys.
Proof.
  revert ys. induction l as [|x l IH]; intros ys; cbn.
  - split; [intros [= <-]; constructor | by inversion 1].
  - destruct (f x) as [y|e] eqn:Hx; cbn.
    + destruct (rmap f l) as [ys'|e] eqn:Hl; cbn.
      * split.
        -- intros [= <-]. constructor; [done|]. by apply IH.
        -- inversion 1 as [|? y' ? ys'' Hy Hys]; subst.
           apply IH in Hys. congruence.
      * split; [discriminate|].
        inversion 1 as [|? y' ? ys'' Hy Hys]; subst.
        apply IH in Hys. discriminate.
    + split; [discriminate|]. inversion 1; congruence.
Qed.

Lemma rmap_length {A B} (f : A -> result B) l ys :
  rmap f l = Ok ys -> length ys = length l.
Proof. intros Hr. apply rmap_Ok, Forall2_length in Hr. done. Qed.

Lemma rmap_Raise {A B} (f : A -> result B) l e :
  rmap f l = Raise e -> exists x, x ∈ l /\ f x = Raise e.
Proof.
  induction l as [|x l IH]; cbn; [discriminate|].
  destruct (f x) as [y|e'] eqn:Hx; cbn.
  - destruct (rmap f l) as [ys|e'']; cbn; [discriminate|].
    intros [= ->]. destruct IH as (x' & Hin & Hx'); [done|].
    exists x'. split; [by right | done].
  - intros [= ->]. exists x. split; [by left | done].
Qed.

Lemma rmap_total {A B} (f : A -> result B) l :
  (forall x, x ∈ l -> exists y, f x = Ok y) -> exists ys, rmap f l = Ok ys.
Proof.
  induction l as [|x l IH]; intros Hall; cbn; [by eexists|].
  destruct (Hall x) as [y ->]; [by left|].
  destruct IH as [ys ->]; [intros; apply Hall; by right|].
  cbn. by eexists.
Qed.

Lemma rmap_lookup {A B} (f : A -> result B) l ys i x :
  rmap f l = Ok ys -> l !! i = Some x ->
  exists y, ys !! i = Some y /\ f x = Ok y.
Proof.
  intros Hr Hx. apply rmap_Ok in Hr.
  destruct (Forall2_lookup_l _ _ _ _ _ Hr Hx) as (y & Hy & Hf). eauto.
Qed.

Lemma index_of_Ok l x i :
  index_of l x = Ok i -> l !! i = Some x.
Proof.
  revert i. induction l as [|y l IH]; intros i; cbn; [discriminate|].
  case_bool_decide as Hy.
  - intros [= <-]. by subst.
  - destruct (index_of l x) as [j|]; cbn; [|discriminate].
    intros [= <-]. by apply IH.
Qed.

Lemma index_of_Raise l x e :
  index_of l x = Raise e -> e = ValueError /\ x ∉ l.
Proof.
  induction l as [|y l IH]; cbn.
  - intros [= <-]. split; [done | apply not_elem_of_nil].
  - case_bool_decide as Hy; [discriminate|].
    destruct (index_of l x) as [j|e'] eqn:Hl; cbn; [discriminate|].
    intros [= ->]. destruct IH as [-> Hnin]; [done|].
    split; [done|]. rewrite elem_of_cons. intros [Heq | Hin]; [by subst | done].
Qed.

Lemma index_of_elem l x : x ∈ l -> exists i, index_of l x = Ok i.
Proof.
  intros Hin. destruct (index_of l x) as [i|e] eqn:Hi; [by eexists|].
  by apply index_of_Raise in Hi as [_ ?].
Qed.


(** ** The stable sort *)

Lemma insert_by_key_Permutation {A} k (v : A) l :
  insert_by_key k v l ≡ₚ (k, v) :: l.
Proof.
  induction l as [|[k' v'] l IH]; cbn; [done|].
  destruct (k <=? k')%nat; [done|].
  rewrite IH. apply Permutation_swap.
Qed.

Lemma sort_by_key_Permutation {A} (l : list (nat * A)) : sort_by_key l ≡ₚ l.
Proof.
  induction l as [|[k v] l IH]; cbn; [done|].
  by rewrite insert_by_key_Permutation, IH.
Qed.

Lemma sort_by_key_length {A} (l : list (nat * A)) :
  length (sort_by_key l) = length l.
Proof. by rewrite sort_by_key_Permutation. Qed.

(** ** Reordering the scores *)

Section FormatProbas.
Context (a : adapter) (registry : list string).
Hypothesis Hregistry : class_labels_ a = Some registry.

Lemma keyed_pair_Ok x i y :
  keyed_pair a x = Ok (i, y) -> y = x /\ index_of registry (fst x) = Ok i.
Proof.
  unfold keyed_pair. rewrite Hregistry. cbn.
  destruct (index_of registry (fst x)) as [j|]; cbn; [|discriminate].
  intros [= <- <-]. done.
Qed.

Lemma keyed_pair_Raise x e :
  keyed_pair a x = Raise e -> e = ValueError /\ fst x ∉ registry.
Proof.
  unfold keyed_pair. rewrite Hregistry. cbn.
  destruct (index_of registry (fst x)) as [j|e'] eqn:Hi; cbn; [discriminate|].
  intros [= ->]. by apply index_of_Raise in Hi.
Qed.

Lemma format_probas_unfold res :
  _format_probas a res =
    (keyed <~ rmap (keyed_pair a) (zip (fst res) (snd res));
     Ok ((fun kx => snd (snd kx)) <$> sort_by_key keyed)).
Proof. reflexivity. Qed.

(** C5, as the code has it: the lookup of [_format_probas] raises
    [ValueError] exactly when one of the labels the model returned is not in
    the registry. A result with fewer entries than there are classes, all of
    them registered, is reordered and returned with one score per entry. *)
Theorem format_probas_fails_iff (res : list string * list score) :
  let pairs := zip (fst res) (snd res) in
  (_format_probas a res = Raise ValueError <->
   exists x, x ∈ pairs /\ fst x ∉ registry) /\
  ((forall x, x ∈ pairs -> fst x ∈ registry) <->
   exists v, _format_probas a res = Ok v /\ length v = length pairs).
Proof.
  intros pairs. rewrite format_probas_unfold. fold pairs.
  destruct (rmap (keyed_pair a) pairs) as [keyed|e] eqn:Hr; cbn.
  - assert (Hall : forall x, x ∈ pairs -> fst x ∈ registry).
    { intros x Hx. apply list_elem_of_lookup in Hx as [i Hi].
      destruct (rmap_lookup _ _ _ _ _ Hr Hi) as ([k y] & _ & Hk).
      apply keyed_pair_Ok in Hk as [_ Hk].
      apply index_of_Ok in Hk. by eapply list_elem_of_lookup_2. }
    split; split.
    + discriminate.
    + intros (x & Hx & Hnin). destruct Hnin. by apply Hall.
    + intros _. eexists. split; [reflexivity|].
      rewrite length_fmap, sort_by_key_length. by eapply rmap_length.
    + intros _. exact Hall.
  - destruct (rmap_Raise _ _ _ Hr) as (x & Hx & Hk).
    apply keyed_pair_Raise in Hk as [-> Hnin].
    split; split.
    + intros _. by exists x.
    + reflexivity.
    + intros Hall. destruct Hnin. by apply Hall.
    + intros (v & [=] & _).
Qed.

End FormatProbas.

(** C5, as stated, fails: with two classes registered, a model that returns
    its best label alone gets a vector of one score back, and no error. *)
Lemma short_result_is_not_refused :
  ~ (forall (a : adapter) (registry : list string) (k : nat)
            (res : list string * list score),
       class_labels_ a = Some registry -> num_classes_ a = Some k ->
       (length (fst res) < k)%nat ->
       _format_probas a res = Raise ValueError).
Proof.
  intros Hclaim.
  specialize (Hclaim (Sample.fitted FirstCol Sample.two_class_model)
                     [label_of 0; label_of 1] 2%nat
                     ([label_of 1], [9 # 10]%Q) eq_refl eq_refl).
  cbn in Hclaim. specialize (Hclaim ltac:(lia)). discriminate Hclaim.
Qed.

(** ** The class registry *)

Lemma dedup_adjacent_elem l x : x ∈ dedup_adjacent l <-> x ∈ l.
Proof.
  induction l as [|a l IH]; [done|].
  destruct l as [|b l]; [done|].
  change (dedup_adjacent (a :: b :: l)) with
    (if bool_decide (a = b) then dedup_adjacent (b :: l)
     else a :: dedup_adjacent (b :: l)).
  case_bool_decide as Hab.
  - subst b. rewrite IH, !elem_of_cons. tauto.
  - rewrite elem_of_cons, IH. by rewrite (elem_of_cons (b :: l)).
Qed.

Lemma dedup_adjacent_sorted l :
  StronglySorted Z.le l -> StronglySorted Z.lt (dedup_adjacent l).
Proof.
  induction l as [|a l IH]; intros Hs; [constructor|].
  apply StronglySorted_cons in Hs as [Ha Hl].
  destruct l as [|b l]; [repeat constructor|].
  change (dedup_adjacent (a :: b :: l)) with
    (if bool_decide (a = b) then dedup_adjacent (b :: l)
     else a :: dedup_adjacent (b :: l)).
  case_bool_decide as Hab; [by apply IH|].
  constructor; [by apply IH|].
  apply Forall_forall. intros z Hz.
  apply (proj1 (dedup_adjacent_elem _ _)) in Hz.
  pose proof (proj1 (Forall_forall _ _) Ha b ltac:(left)) as Hb.
  pose proof (proj1 (Forall_forall _ _) Ha z Hz) as Hz'.
  apply StronglySorted_cons in Hl as [Hbl _].
  apply elem_of_cons in Hz as [-> | Hz]; [lia|].
  pose proof (proj1 (Forall_forall _ _) Hbl z Hz). lia.
Qed.

(** [unique_labels] lists the labels of [y] in increasing order, each
    once. *)
Lemma unique_labels_sorted y : StronglySorted Z.lt (unique_labels y).
Proof. apply dedup_adjacent_sorted, StronglySorted_merge_sort; apply _. Qed.

Lemma unique_labels_elem y n : n ∈ unique_labels y <-> n ∈ y.
Proof.
  unfold unique_labels. rewrite dedup_adjacent_elem.
  by rewrite (merge_sort_Permutation Z.le y).
Qed.

Lemma StronglySorted_lt_NoDup (l : list Z) : StronglySorted Z.lt l -> NoDup l.
Proof.
  induction 1 as [|x l _ IH Hx]; constructor; [|done].
  intros Hin. pose proof (proj1 (Forall_forall _ _) Hx x Hin). lia.
Qed.

Lemma label_of_inj : Inj (=) (=) label_of.
Proof.
  intros n m Heq. unfold label_of, LABEL_PREFIX in Heq.
  apply PyStrFacts.str_inj. by simplify_eq/=.
Qed.

Lemma registry_NoDup y : NoDup (label_of <$> unique_labels y).
Proof.
  pose proof label_of_inj.
  apply (NoDup_fmap_2 _), StronglySorted_lt_NoDup, unique_labels_sorted.
Qed.

(** ** Sorting by registry position *)






Lemma rmap_pure {A B} (f : A -> result B) (g : A -> B) l :
  (forall x, x ∈ l -> f x = Ok (g x)) -> rmap f l = Ok (g <$> l).
Proof.
  induction l as [|x l IH]; intros Hall; [done|].
  cbn. rewrite Hall by left. cbn. rewrite IH; [done|].
  intros; apply Hall; by right.
Qed.

Section Reordering.
Context (a : adapter) (registry : list string).
Hypothesis Hregistry : class_labels_ a = Some registry.
Hypothesis Hnodup : NoDup registry.


End Reordering.

(** ** One text per row *)

Lemma filter_label_unique cols (lbl : pyobj) :
  NoDup (col_label <$> cols) ->
  filter (fun c => col_label c = lbl) cols = [] \/
  exists c, filter (fun c => col_label c = lbl) cols = [c].
Proof.
  induction cols as [|c cols IH]; intros Hnd; [by left|].
  rewrite fmap_cons in Hnd. apply NoDup_cons in Hnd as [Hc Hnd].
  destruct (decide (col_label c = lbl)) as [Heq|Hne].
  - right. exists c. rewrite filter_cons_True by done. f_equal.
    destruct (filter _ cols) as [|c' l'] eqn:Hf; [done|].
    assert (Hc' : c' ∈ filter (fun c => col_label c = lbl) cols)
      by (rewrite Hf; left).
    apply list_elem_of_filter in Hc' as [Hl Hin].
    destruct Hc. rewrite Heq, <- Hl. by apply list_elem_of_fmap_2.
  - rewrite filter_cons_False by done. by apply IH.
Qed.

Lemma df_getitem_valid df lbl col :
  NoDup (col_label <$> df_columns df) ->
  df_getitem df lbl = Ok col ->
  exists c, c ∈ df_columns df /\ col_label c = lbl /\ col = Values (col_values c).
Proof.
  intros Hnd. unfold df_getitem.
  destruct (filter_label_unique (df_columns df) lbl Hnd) as [Hf | [c Hf]];
    rewrite Hf; [discriminate|].
  intros [= <-]. exists c.
  assert (Hc : c ∈ filter (fun c => col_label c = lbl) (df_columns df))
    by (rewrite Hf; left).
  apply list_elem_of_filter in Hc as [Hl Hin]. done.
Qed.

(** On a well-formed table, the extracted column has one text per row, in
    the order of the rows. *)
Lemma input_col_rows a X col :
  valid_table X -> _input_col a X = Ok col ->
  length (iterate col) = n_rows X.
Proof.
  intros Hvalid. unfold _input_col.
  assert (Hnd : forall arr i, nd_column arr i = Ok col ->
                  length (iterate col) = length (nd_rows arr)).
  { intros arr i. unfold nd_column. destruct (_ && _); [|discriminate].
    intros [= <-]. cbn. by rewrite length_fmap. }
  assert (Hdf : forall df lbl, valid_table (DataFrame df) ->
                  df_getitem df lbl = Ok col ->
                  length (iterate col) = df_nrows df).
  { intros df lbl [Hlabels Hlen] Hget.
    destruct (df_getitem_valid df lbl col Hlabels Hget) as (c & Hin & _ & ->).
    cbn. by apply (proj1 (Forall_forall _ _) Hlen). }
  destruct (cls a), X as [arr|df|rows]; try discriminate; cbn; eauto.
  destruct (truthy _); [eauto | discriminate].
Qed.

(** ** Predicted labels *)

Section Predict.
Context `{External}.

Lemma predict_unfold a m X arr col :
  model a = Some m -> _validate_x X = Ok arr -> _input_col a X = Ok col ->
  predict a X =
    (rs <~ rmap (fun text => ft_predict m text 1) (iterate col);
     rmap (fun res => lbl <~ first (fst res); _clean_label lbl) rs).
Proof.
  intros Hm Hx Hcol. unfold predict, _predict, check_is_fitted.
  by rewrite Hm, Hx, Hcol.
Qed.

(** C1: on a fitted adapter and a well-formed table that passes validation
    and from which the text column can be extracted, [predict] returns when
    the model gives every text a best label whose remainder after the prefix
    is an integer literal, and what it returns is one integer per row, in
    the order of the rows: the integer at position [i] is [int] of the
    model's first label for the text of row [i], asked with [k = 1], without
    its first nine characters. *)
Theorem predict_decodes_top_label
    (a : adapter) (m : Model) (X : table) (arr : ndarray) (col : selection) :
  model a = Some m -> valid_table X ->
  _validate_x X = Ok arr -> _input_col a X = Ok col ->
  let texts := iterate col in
  let decoded text n :=
    exists lbls scores top,
      ft_predict m text 1 = Ok (lbls, scores) /\ lbls !! 0%nat = Some top /\
      PyStr.int (PyStr.slice_from 9 top) = Ok n in
  length texts = n_rows X /\
  ((forall text, text ∈ texts -> exists n, decoded text n) ->
   exists ys, predict a X = Ok ys) /\
  (forall ys, predict a X = Ok ys ->
     length ys = n_rows X /\
     forall i text, texts !! i = Some text ->
       exists n, ys !! i = Some n /\ decoded text n).
Proof.
  intros Hm Hvalid Hx Hcol texts decoded.
  pose proof (input_col_rows a X col Hvalid Hcol) as Hrows. fold texts in Hrows.
  rewrite (predict_unfold a m X arr col Hm Hx Hcol). fold texts.
  split; [exact Hrows|]. split.
  - intros Hall.
    destruct (rmap_total (fun text => ft_predict m text 1) texts) as [rs Hrs].
    { intros text Hin. destruct (Hall text Hin) as (n & lbls & scores & top & -> & _).
      by eexists. }
    rewrite Hrs. cbn. apply rmap_total. intros res Hres.
    apply rmap_Ok in Hrs.
    apply list_elem_of_lookup in Hres as [i Hi].
    destruct (Forall2_lookup_r _ _ _ _ _ Hrs Hi) as (text & Htext & Hp).
    destruct (Hall text) as (n & lbls & scores & top & Hp' & Htop & Hint).
    { by eapply list_elem_of_lookup_2. }
    rewrite Hp' in Hp. injection Hp as <-. cbn.
    destruct lbls as [|top' lbls]; [discriminate|]. injection Htop as ->.
    cbn. unfold _clean_label. rewrite Hint. by eexists.
  - intros ys.
    destruct (rmap (fun text => ft_predict m text 1) texts) as [rs|] eqn:Hrs;
      [cbn|discriminate].
    intros Hys. split.
    { rewrite (rmap_length _ _ _ Hys), (rmap_length _ _ _ Hrs). exact Hrows. }
    intros i text Hi.
    destruct (rmap_lookup _ _ _ _ _ Hrs Hi) as ([lbls scores] & Hres & Hp).
    destruct (rmap_lookup _ _ _ _ _ Hys Hres) as (n & Hn & Hdec).
    exists n. split; [exact Hn|].
    cbn in Hdec. destruct lbls as [|top lbls]; [discriminate|]. cbn in Hdec.
    exists (top :: lbls), scores, top. done.
Qed.

End Predict.

(** ** Class probabilities *)

Section PredictProba.
Context `{External}.

(** What a [fit] that returns has recorded in [self]. *)
Lemma fit_success_registry X y rnd a0 w0 a w :
  fit X y rnd (a0, w0) = ((a, w), Ok tt) ->
  let classes := unique_labels (label_data y) in
  classes_ a = Some classes /\
  num_classes_ a = Some (length classes) /\
  class_labels_ a = Some (label_of <$> classes) /\
  cls a = cls a0 /\
  exists m, model a = Some m.
Proof.
  rewrite fit_cases.
  destruct (_validate_x X); [|discriminate].
  rewrite validate_y_rank. destruct (negb _); [discriminate|].
  cbv zeta. destruct (_input_col a0 X); [|discriminate].
  destruct (bool_decide _); [discriminate|].
  destruct (train_supervised _ _) as [m|]; [|discriminate].
  intros [= <- _]. unfold label_data. cbn. eauto 10.
Qed.

Lemma predict_proba_unfold a m k X arr col :
  model a = Some m -> num_classes_ a = Some k ->
  _validate_x X = Ok arr -> _input_col a X = Ok col ->
  predict_proba a X =
    (rs <~ rmap (fun text => ft_predict m text (Z.of_nat k)) (iterate col);
     rmap (_format_probas a) rs).
Proof.
  intros Hm Hk Hx Hcol. unfold predict_proba, _predict, check_is_fitted.
  by rewrite Hk, Hm, Hx, Hcol.
Qed.




End PredictProba.


(** ** The statements on sample inputs *)

Example fit_sample :
  let out := @fit Sample.env Sample.X_frame Sample.y_frame 7
               (ColLblBasedFtClassifier "text" ∅, Sample.no_world) in
  snd out = Ok tt /\
  classes_ (fst (fst out)) = Some [0; 1] /\
  class_labels_ (fst (fst out)) = Some ["__label__0"; "__label__1"] /\
  files (snd (fst out)) !! "/home/user/.temp/temp_ft_trainset_7.ft" =
    Some ("__label__1 good" ++ newline ++ "__label__0 bad" ++ newline ++
          "__label__1 good" ++ newline).
Proof.
  cbv zeta. rewrite fit_cases. repeat split; reflexivity.
Qed.

Example predict_sample :
  @predict Sample.env (Sample.fitted (IdxBased 1) Sample.two_class_model) Sample.X_array
    = Ok [1; 0] /\
  @predict_proba Sample.env (Sample.fitted (IdxBased 1) Sample.two_class_model)
      Sample.X_array
    = Ok [[1 # 10; 9 # 10]; [8 # 10; 2 # 10]]%Q.
Proof. split; reflexivity. Qed.

(** The positional-indexed strategy with index 1 extracts the second
    column. *)
Example idx_based_sample :
  _input_col (IdxBasedFtClassifier 1 ∅)
    (NdArray {| nd_dtype := dt_object; nd_ncols := 2;
                nd_rows := [[PyStr "a"; PyStr "x"]; [PyStr "b"; PyStr "y"]] |})
    = Ok (Values [PyStr "x"; PyStr "y"]).
Proof. reflexivity. Qed.

Lemma fit_rejects_wrong_rank_witness :
  @rank Sample.env Sample.y_matrix <> 1%nat /\
  @fit Sample.env Sample.X_array Sample.y_matrix 7
     (FirstColFtClassifier ∅, Sample.no_world)
  = ((FirstColFtClassifier ∅, Sample.no_world), Raise ValueError).
Proof.
  split; [cbn; discriminate|].
  apply (@fit_rejects_wrong_rank Sample.env). cbn. discriminate.
Defined.

Lemma format_probas_fails_iff_witness :
  class_labels_ (Sample.fitted FirstCol Sample.two_class_model)
    = Some [label_of 0; label_of 1] /\
  exists v,
    _format_probas (Sample.fitted FirstCol Sample.two_class_model)
      ([label_of 1], [9 # 10]%Q) = Ok v /\
    length v = 1%nat.
Proof.
  split; [reflexivity|].
  apply (format_probas_fails_iff (Sample.fitted FirstCol Sample.two_class_model)
           [label_of 0; label_of 1] eq_refl ([label_of 1], [9 # 10]%Q)).
  intros x Hx. cbn in Hx. apply list_elem_of_singleton in Hx. subst x.
  cbn. right. left.
Defined.

Lemma predict_decodes_top_label_witness :
  exists ys,
    @predict Sample.env (Sample.fitted (IdxBased 1) Sample.two_class_model)
      Sample.X_array = Ok ys /\
    length ys = 2%nat.
Proof.
  destruct (@predict_decodes_top_label Sample.env
              (Sample.fitted (IdxBased 1) Sample.two_class_model)
              Sample.two_class_model Sample.X_array
              {| nd_dtype := dt_object; nd_ncols := 2;
                 nd_rows := [[PyStr "a"; PyStr "good"]; [PyStr "b"; PyStr "bad"]] |}
              (Values [PyStr "good"; PyStr "bad"])
              eq_refl I eq_refl eq_refl)
    as (_ & Hreturns & Hdecoded).
  destruct Hreturns as [ys Hys].
  - intros text Hin. cbn in Hin.
    apply elem_of_cons in Hin as [-> | Hin].
    + exists 1, [label_of 1], [9 # 10]%Q, (label_of 1). repeat split; reflexivity.
    + apply list_elem_of_singleton in Hin. subst text.
      exists 0, [label_of 0], [8 # 10]%Q, (label_of 0). repeat split; reflexivity.
  - exists ys. split; [exact Hys|]. by apply Hdecoded.
Defined.


Lemma validate_x_accepts_exactly_witness :
  @_validate_x Sample.env Sample.X_text_array = Raise ValueError /\
  exists arr, @_validate_x Sample.env Sample.X_frame = Ok arr.
Proof.
  split.
  - rewrite (@validate_x_accepts_exactly Sample.env Sample.X_text_array eq_refl).
    reflexivity.
  - rewrite (@validate_x_accepts_exactly Sample.env Sample.X_frame eq_refl).
    eexists. reflexivity.
Defined.

(** * Further properties of the adapter *)

(** ** What a failed [fit] leaves behind *)

Section FitOutcomes.
Context `{External}.

(** When the inputs pass validation and the extraction of the text column
    raises, [fit] raises the same error and has touched neither the file
    system nor the trainer, but [self] already carries the registry of the
    new [y] and the new path, next to the model it had before. *)
Theorem failed_extraction_keeps_model_and_world
    (a : adapter) (w : world) (X : table) (y : labels) (rnd : Z)
    (arr : ndarray) (e : exn) :
  _validate_x X = Ok arr -> rank y = 1%nat -> _input_col a X = Raise e ->
  let out := fit X y rnd (a, w) in
  let classes := unique_labels (label_data y) in
  snd out = Raise e /\ snd (fst out) = w /\
  model (fst (fst out)) = model a /\
  classes_ (fst (fst out)) = Some classes /\
  num_classes_ (fst (fst out)) = Some (length classes) /\
  class_labels_ (fst (fst out)) = Some (label_of <$> classes) /\
  temp_trainset_fpath (fst (fst out)) = Some (temp_dataset_fpath rnd).
Proof.
  intros Hx Hrank Hcol out classes. subst out.
  rewrite fit_cases, Hx, validate_y_rank, Hrank. cbn [Nat.eqb negb].
  cbv zeta. rewrite Hcol. cbn. done.
Qed.

(** An error of the trainer comes out of [fit] unchanged. By then the
    training file is written and the call is recorded; the model of [self]
    is the one it had before. *)
Theorem trainer_error_propagates
    (a : adapter) (w : world) (X : table) (y : labels) (rnd : Z)
    (arr : ndarray) (col : selection) (e : exn) :
  _validate_x X = Ok arr -> rank y = 1%nat -> _input_col a X = Ok col ->
  kwargs a !! "input" = None ->
  let path := temp_dataset_fpath rnd in
  let fs := dump_xy_to_fasttext_format col (label_data y) path (files w) in
  let args := trainer_args path (kwargs a) in
  train_supervised args fs = Raise e ->
  let out := fit X y rnd (a, w) in
  snd out = Raise e /\
  model (fst (fst out)) = model a /\
  files (snd (fst out)) = fs /\
  trainer_calls (snd (fst out)) = args :: trainer_calls w.
Proof.
  intros Hx Hrank Hcol Hkw path fs args Htrain out. subst out.
  rewrite fit_cases, Hx, validate_y_rank, Hrank. cbn [Nat.eqb negb].
  cbv zeta. rewrite Hcol.
  rewrite bool_decide_eq_false_2 by (rewrite Hkw; intros [? ?]; discriminate).
  unfold label_data in fs. fold path. fold fs. fold args. rewrite Htrain.
  cbn. done.
Qed.

(** An adapter without a model that goes through a [fit] that raises still
    answers [predict] with [NotFittedError]. *)
Theorem failed_fit_stays_unfitted
    (a : adapter) (w : world) (X X' : table) (y : labels) (rnd : Z) (e : exn) :
  model a = None ->
  snd (fit X y rnd (a, w)) = Raise e ->
  predict (fst (fst (fit X y rnd (a, w)))) X' = Raise NotFittedError.
Proof.
  intros Hm Hfail. apply predict_without_model.
  by rewrite (fit_failure_keeps_model _ _ _ _ _ _ Hfail).
Qed.

(** [fit] never changes the class of the adapter nor its stored options,
    whether it returns or raises. *)
Theorem fit_keeps_configuration
    (a : adapter) (w : world) (X : table) (y : labels) (rnd : Z) :
  cls (fst (fst (fit X y rnd (a, w)))) = cls a /\
  kwargs (fst (fst (fit X y rnd (a, w)))) = kwargs a.
Proof.
  rewrite fit_cases.
  destruct (_validate_x X); [|done].
  destruct (_validate_y y) as [ya|]; [|done].
  cbv zeta. destruct (_input_col a X); [|done].
  destruct (bool_decide _); [done|].
  by destruct (train_supervised _ _).
Qed.

(** With the two classes that inherit the constructor, a [fit] that returns
    has called the trainer with the adapter's path under ['input'] and, under
    every other key, exactly what was given at construction. *)
Theorem base_classes_forward_options
    (v : variant) (kw : gmap string pyobj) (X : table) (y : labels) (rnd : Z)
    (w : world) :
  v = FirstCol \/ v = FirstObj ->
  snd (fit X y rnd (construct v kw, w)) = Ok tt ->
  exists args,
    trainer_calls (snd (fst (fit X y rnd (construct v kw, w))))
      = args :: trainer_calls w /\
    args !! "input" = Some (PyStr (temp_dataset_fpath rnd)) /\
    forall k, k <> "input" -> args !! k = kw !! k.
Proof.
  intros Hv. rewrite fit_cases.
  destruct (_validate_x X); [|discriminate].
  destruct (_validate_y y) as [ya|]; [|discriminate].
  cbv zeta. destruct (_input_col _ X); [|discriminate].
  rewrite bool_decide_eq_false_2
    by (rewrite construct_kwargs_no_input; intros [? ?]; discriminate).
  destruct (train_supervised _ _); [|discriminate].
  intros _. eexists. split; [reflexivity|]. split.
  - apply lookup_insert_eq.
  - intros k Hk. unfold trainer_args. rewrite lookup_insert_ne by done.
    by apply base_constructor_keeps_options.
Qed.

End FitOutcomes.

(** ** Names of the training files *)

Lemma string_app_inv_head (p s t : string) : p ++ s = p ++ t -> s = t.
Proof. induction p as [|c p IH]; cbn; [done|]. intros [= Heq]. by apply IH. Qed.

Lemma list_ascii_of_string_app (s t : string) :
  list_ascii_of_string (s ++ t) = (list_ascii_of_string s ++ list_ascii_of_string t)%list.
Proof.
  induction s as [|c s IH]; [done|].
  change (String c s ++ t) with (String c (s ++ t)).
  cbn [list_ascii_of_string]. by rewrite IH.
Qed.

Lemma string_app_inv_tail (s t q : string) : s ++ q = t ++ q -> s = t.
Proof.
  intros Heq. apply (f_equal list_ascii_of_string) in Heq.
  rewrite !list_ascii_of_string_app in Heq.
  apply app_inv_tail in Heq.
  apply (f_equal string_of_list_ascii) in Heq.
  by rewrite !string_of_list_ascii_of_string in Heq.
Qed.

(** Two draws give the same training-file path exactly when they are the
    same number: distinct draws never collide, and equal draws always do. *)
Theorem temp_dataset_fpath_collides_iff `{External} (r1 r2 : Z) :
  temp_dataset_fpath r1 = temp_dataset_fpath r2 <-> r1 = r2.
Proof.
  split; [|by intros ->].
  unfold temp_dataset_fpath. intros Heq.
  do 3 apply string_app_inv_head in Heq.
  apply string_app_inv_tail in Heq.
  by apply PyStrFacts.str_inj.
Qed.

(** ** Edges of the label decoder *)

Lemma slice_from_app (p s : string) :
  PyStr.slice_from (String.length p) (p ++ s) = s.
Proof.
  induction p as [|c p IH]; [by destruct s|].
  change (String c p ++ s) with (String c (p ++ s)). exact IH.
Qed.

Lemma slice_from_short (n : nat) (s : string) :
  (String.length s <= n)%nat -> PyStr.slice_from n s = "".
Proof.
  revert s. induction n as [|n IH]; intros [|c s]; cbn; try done; [lia|].
  intros Hlen. apply IH. lia.
Qed.

(** [_clean_label] does not look at the first nine characters: whatever
    they are, it reads the rest as an integer. *)
Theorem clean_label_ignores_prefix (p s : string) :
  String.length p = 9%nat -> _clean_label (p ++ s) = PyStr.int s.
Proof.
  intros Hlen. unfold _clean_label. by rewrite <- Hlen, slice_from_app.
Qed.

(** A label of at most nine characters, the bare prefix among them, has
    nothing left to read: [_clean_label] raises [ValueError]. *)
Theorem clean_label_short_label (s : string) :
  (String.length s <= 9)%nat -> _clean_label s = Raise ValueError.
Proof.
  intros Hlen. unfold _clean_label. by rewrite slice_from_short.
Qed.

(** ** The first column of objects *)

Lemma first_object_label_head cols :
  first_object_label cols =
    match head (filter (fun c => col_dtype c = dt_object) cols) with
    | Some c => col_label c
    | None => PyNone
    end.
Proof.
  induction cols as [|c cols IH]; [done|]. cbn [first_object_label].
  case_bool_decide as Hc.
  - by rewrite filter_cons_True.
  - by rewrite filter_cons_False.
Qed.

Lemma df_getitem_member df c :
  NoDup (col_label <$> df_columns df) -> c ∈ df_columns df ->
  df_getitem df (col_label c) = Ok (Values (col_values c)).
Proof.
  intros Hnd Hin. unfold df_getitem.
  assert (Hc : c ∈ filter (fun c' => col_label c' = col_label c) (df_columns df))
    by (by apply list_elem_of_filter).
  destruct (filter_label_unique (df_columns df) (col_label c) Hnd) as [Hf | [c' Hf]];
    rewrite Hf in Hc |- *.
  - by apply elem_of_nil in Hc.
  - apply list_elem_of_singleton in Hc. by subst c'.
Qed.

(** On a well-formed DataFrame, the labeled-first-text extraction looks at
    the first column of objects only. It returns that column's values when
    the column's label is truthy, and raises [ValueError] when there is no
    such column or when its label is falsy; a later column of objects is
    never used instead. *)
Theorem first_obj_extraction (kw : gmap string pyobj) (df : dataframe) :
  valid_table (DataFrame df) ->
  _input_col (FirstObjFtClassifier kw) (DataFrame df) =
    match head (filter (fun c => col_dtype c = dt_object) (df_columns df)) with
    | Some c =>
        if truthy (col_label c) then Ok (Values (col_values c))
        else Raise ValueError
    | None => Raise ValueError
    end.
Proof.
  intros [Hnd _]. cbn. rewrite first_object_label_head.
  destruct (head _) as [c|] eqn:Hhead; [|done].
  destruct (truthy (col_label c)); [|done].
  apply df_getitem_member; [done|].
  apply head_Some_elem_of in Hhead.
  by apply list_elem_of_filter in Hhead as [_ ?].
Qed.

(** ** Order of the checks in prediction *)

Lemma rmap_app_Raise {A B} (f : A -> result B) l1 x l2 e :
  Forall (fun x' => exists y, f x' = Ok y) l1 -> f x = Raise e ->
  rmap f (l1 ++ x :: l2)%list = Raise e.
Proof.
  induction 1 as [|x' l1 [y Hy] _ IH]; intros Hx; cbn.
  - by rewrite Hx.
  - rewrite Hy. cbn. by rewrite IH.
Qed.

Section PredictEdges.
Context `{External}.

(** On a fitted adapter, an [X] whose element type is not allowed makes
    [predict] and [predict_proba] raise [ValueError], whatever the class of
    the adapter and whatever the extraction would have done. *)
Theorem predict_rejects_bad_dtype (a : adapter) (m : Model) (k : nat) (X : table) :
  model a = Some m -> num_classes_ a = Some k ->
  element_type X <> dt_unicode LittleEndian 26 -> element_type X <> dt_object ->
  predict a X = Raise ValueError /\ predict_proba a X = Raise ValueError.
Proof.
  intros Hm Hk Htext Hobj.
  assert (Hx : _validate_x X = Raise ValueError)
    by (by apply validate_x_bad_dtype).
  unfold predict, predict_proba, _predict, check_is_fitted.
  by rewrite Hk, Hm, Hx.
Qed.

(** The model is asked about every row before any label is decoded: when
    it raises on some text, having answered the texts before it, [predict]
    raises that error, also when a label returned for an earlier text could
    not have been decoded. *)
Theorem model_error_propagates
    (a : adapter) (m : Model) (X : table) (arr : ndarray) (col : selection)
    (before after : list pyobj) (text : pyobj) (e : exn) :
  model a = Some m -> _validate_x X = Ok arr -> _input_col a X = Ok col ->
  iterate col = (before ++ text :: after)%list ->
  Forall (fun t => exists res, ft_predict m t 1 = Ok res) before ->
  ft_predict m text 1 = Raise e ->
  predict a X = Raise e.
Proof.
  intros Hm Hx Hcol Htexts Hbefore Htext.
  rewrite (predict_unfold a m X arr col Hm Hx Hcol), Htexts.
  by rewrite (rmap_app_Raise _ _ _ _ _ Hbefore Htext).
Qed.

(** On a table without rows, a fitted adapter returns the empty list from
    both methods. *)
Theorem predict_empty_table
    (a : adapter) (m : Model) (k : nat) (X : table) (arr : ndarray)
    (col : selection) :
  model a = Some m -> num_classes_ a = Some k ->
  _validate_x X = Ok arr -> _input_col a X = Ok col -> iterate col = [] ->
  predict a X = Ok [] /\ predict_proba a X = Ok [].
Proof.
  intros Hm Hk Hx Hcol Hempty.
  rewrite (predict_unfold a m X arr col Hm Hx Hcol).
  rewrite (predict_proba_unfold a m k X arr col Hm Hk Hx Hcol).
  by rewrite Hempty.
Qed.

(** After a [fit] that returned, when the model's best label for every text
    is one of the registered labels, [predict] returns, and every integer it
    returns is a label that was in [y]. *)
Theorem predict_values_seen_in_fit
    (a0 a : adapter) (w0 w : world) (X0 X : table) (y : labels) (rnd : Z)
    (arr : ndarray) (col : selection) :
  fit X0 y rnd (a0, w0) = ((a, w), Ok tt) ->
  _validate_x X = Ok arr -> _input_col a X = Ok col ->
  (forall m text, model a = Some m -> text ∈ iterate col ->
     exists lbls scores top,
       ft_predict m text 1 = Ok (lbls, scores) /\ head lbls = Some top /\
       top ∈ label_of <$> unique_labels (label_data y)) ->
  exists ys, predict a X = Ok ys /\ Forall (fun n => n ∈ label_data y) ys.
Proof.
  intros Hfit Hx Hcol Hmodel.
  destruct (fit_success_registry _ _ _ _ _ _ _ Hfit) as (_ & _ & _ & _ & m & Hm).
  rewrite (predict_unfold a m X arr col Hm Hx Hcol).
  set (decode := fun res : list string * list score =>
                   lbl <~ first (fst res); _clean_label lbl).
  assert (Hdec : forall text, text ∈ iterate col ->
            exists res n, ft_predict m text 1 = Ok res /\ decode res = Ok n /\
                          n ∈ label_data y).
  { intros text Hin.
    destruct (Hmodel m text Hm Hin) as (lbls & scores & top & Hp & Htop & Hreg).
    apply list_elem_of_fmap in Hreg as (n & -> & Hn).
    exists (lbls, scores), n. split; [done|]. split.
    - unfold decode. destruct lbls as [|l lbls]; [done|]. injection Htop as ->.
      cbn. unfold _clean_label, label_of, LABEL_PREFIX. cbn [PyStr.slice_from].
      apply PyStrFacts.int_str.
    - by apply unique_labels_elem. }
  destruct (rmap_total (fun text => ft_predict m text 1) (iterate col)) as [rs Hrs].
  { intros text Hin. destruct (Hdec text Hin) as (res & _ & -> & _). by eexists. }
  rewrite Hrs. cbn. fold decode.
  assert (Hres : forall res, res ∈ rs -> exists n, decode res = Ok n /\ n ∈ label_data y).
  { intros res Hin. apply list_elem_of_lookup in Hin as [i Hi].
    apply rmap_Ok in Hrs.
    destruct (Forall2_lookup_r _ _ _ _ _ Hrs Hi) as (text & Htext & Hp).
    destruct (Hdec text) as (res' & n & Hp' & Hn & Hy).
    { by eapply list_elem_of_lookup_2. }
    exists n. split; [congruence | done]. }
  destruct (rmap_total decode rs) as [ys Hys].
  { intros res Hin. destruct (Hres res Hin) as (n & -> & _). by eexists. }
  exists ys. split; [done|].
  apply Forall_forall. intros n Hn.
  apply list_elem_of_lookup in Hn as [i Hi].
  apply rmap_Ok in Hys.
  destruct (Forall2_lookup_r _ _ _ _ _ Hys Hi) as (res & Hr & Hd).
  destruct (Hres res) as (n' & Hd' & Hy); [by eapply list_elem_of_lookup_2|].
  congruence.
Qed.

End PredictEdges.

(** ** What the reordering keeps *)

Lemma keyed_pair_same a x i y : keyed_pair a x = Ok (i, y) -> y = x.
Proof.
  unfold keyed_pair. destruct (class_labels_ a) as [registry|]; [|discriminate].
  cbn. destruct (index_of registry (fst x)); cbn; [|discriminate].
  by intros [= _ <-].
Qed.

Lemma keyed_pairs_values a pairs keyed :
  rmap (keyed_pair a) pairs = Ok keyed -> snd <$> keyed = pairs.
Proof.
  revert keyed. induction pairs as [|x pairs IH]; intros keyed; cbn.
  - by intros [= <-].
  - destruct (keyed_pair a x) as [[i y]|] eqn:Hx; cbn; [|discriminate].
    destruct (rmap (keyed_pair a) pairs) as [keyed'|]; cbn; [|discriminate].
    intros [= <-]. cbn. apply keyed_pair_same in Hx as ->. by rewrite IH.
Qed.

(** The vector [_format_probas] returns is a rearrangement of the scores
    that are paired with a label: no score is invented, dropped or
    repeated. *)
Theorem format_probas_permutes_scores
    (a : adapter) (res : list string * list score) (v : list score) :
  _format_probas a res = Ok v ->
  v ≡ₚ snd <$> zip (fst res) (snd res).
Proof.
  unfold _format_probas. cbv zeta.
  destruct (rmap (keyed_pair a) (zip (fst res) (snd res))) as [keyed|] eqn:Hk;
    cbn; [|discriminate].
  intros [= <-].
  rewrite <- (keyed_pairs_values _ _ _ Hk), <- list_fmap_compose.
  apply fmap_Permutation, sort_by_key_Permutation.
Qed.

Lemma sort_by_key_sorted_id {A} (l : list (nat * A)) :
  StronglySorted key_le l -> sort_by_key l = l.
Proof.
  induction 1 as [|[k v] l _ IH Hk]; [done|].
  cbn. rewrite IH. destruct l as [|[k' v'] l']; [done|].
  cbn. apply Forall_cons in Hk as [Hk _]. unfold key_le in Hk. cbn in Hk.
  by rewrite (proj2 (Nat.leb_le k k') Hk).
Qed.

Lemma keys_sorted_pairs_sorted {A} (l : list (nat * A)) :
  StronglySorted le (fst <$> l) -> StronglySorted key_le l.
Proof.
  induction l as [|p l IH]; [constructor|].
  rewrite fmap_cons. intros Hs. apply StronglySorted_cons in Hs as [Hp Hl].
  constructor; [by apply IH|].
  by rewrite Forall_fmap in Hp.
Qed.

(** When the model returns registered labels already in the order of the
    registry, with as many scores, [_format_probas] returns the scores as
    they came. *)
Theorem format_probas_keeps_registry_order
    (a : adapter) (registry lbls : list string) (scores : list score) :
  class_labels_ a = Some registry ->
  Forall (fun lbl => lbl ∈ registry) lbls ->
  StronglySorted le (position registry <$> lbls) ->
  length scores = length lbls ->
  _format_probas a (lbls, scores) = Ok scores.
Proof.
  intros Hregistry Hall Hsorted Hlen.
  set (pairs := zip lbls scores).
  set (key := fun x : string * score => (position registry (fst x), x)).
  unfold _format_probas. cbn [fst snd]. fold pairs.
  rewrite (rmap_pure _ key).
  - cbn. f_equal.
    assert (Hfst : fst <$> (key <$> pairs) = position registry <$> lbls).
    { rewrite <- (fst_zip lbls scores) by lia.
      rewrite <- !list_fmap_compose. reflexivity. }
    rewrite sort_by_key_sorted_id
      by (apply keys_sorted_pairs_sorted; by rewrite Hfst).
    rewrite <- list_fmap_compose.
    change ((fun kx : nat * (string * score) => snd (snd kx)) ∘ key)
      with (@snd string score).
    apply snd_zip. lia.
  - intros [lbl s] Hin. unfold keyed_pair. rewrite Hregistry. cbn.
    destruct (index_of_elem registry lbl) as [i Hi].
    { apply (proj1 (Forall_forall _ _) Hall). by eapply elem_of_zip_l. }
    unfold key, position. cbn. by rewrite Hi.
Qed.

(** ** The registry after fitting *)

Lemma dedup_adjacent_length l : (length (dedup_adjacent l) <= length l)%nat.
Proof.
  induction l as [|a l IH]; [done|].
  destruct l as [|b l]; [done|].
  change (dedup_adjacent (a :: b :: l)) with
    (if bool_decide (a = b) then dedup_adjacent (b :: l)
     else a :: dedup_adjacent (b :: l)).
  case_bool_decide; cbn [length] in *; lia.
Qed.

Lemma unique_labels_length y : (length (unique_labels y) <= length y)%nat.
Proof.
  unfold unique_labels.
  rewrite <- (Permutation_length (merge_sort_Permutation Z.le y)).
  apply dedup_adjacent_length.
Qed.

Lemma rmap_clean_label_registry classes :
  rmap _clean_label (label_of <$> classes) = Ok classes.
Proof.
  induction classes as [|n classes IH]; [done|].
  cbn [fmap list_fmap rmap].
  assert (Hn : _clean_label (label_of n) = Ok n).
  { unfold _clean_label, label_of, LABEL_PREFIX. cbn [PyStr.slice_from].
    apply PyStrFacts.int_str. }
  change (list_fmap Z string label_of classes) with (label_of <$> classes).
  rewrite Hn. cbn. rewrite IH. done.
Qed.

(** After a [fit] that returned, the prefixed labels in [self] are pairwise
    distinct, there are [num_classes_] of them and at most as many as
    examples, and decoding them one by one gives [classes_] back. *)
Theorem fit_registry_decodes `{External}
    (a0 a : adapter) (w0 w : world) (X : table) (y : labels) (rnd : Z) :
  fit X y rnd (a0, w0) = ((a, w), Ok tt) ->
  exists classes registry,
    classes_ a = Some classes /\ class_labels_ a = Some registry /\
    num_classes_ a = Some (length registry) /\
    NoDup registry /\
    (length registry <= length (label_data y))%nat /\
    rmap _clean_label registry = Ok classes.
Proof.
  intros Hfit.
  destruct (fit_success_registry _ _ _ _ _ _ _ Hfit) as (Hc & Hk & Hl & _).
  exists (unique_labels (label_data y)), (label_of <$> unique_labels (label_data y)).
  rewrite length_fmap. repeat split; try done.
  - apply registry_NoDup.
  - apply unique_labels_length.
  - apply rmap_clean_label_registry.
Qed.

(** ** The further properties on sample inputs *)

Lemma failed_extraction_keeps_model_and_world_witness :
  let out := @fit Sample.env Sample.X_array Sample.y_other 7
               (Sample.fitted FirstObj Sample.two_class_model, Sample.no_world) in
  snd out = Raise AttributeError /\
  model (fst (fst out)) = Some Sample.two_class_model /\
  class_labels_ (fst (fst out)) = Some [label_of 5; label_of 7].
Proof.
  destruct (@failed_extraction_keeps_model_and_world Sample.env
              (Sample.fitted FirstObj Sample.two_class_model) Sample.no_world
              Sample.X_array Sample.y_other 7
              {| nd_dtype := dt_object; nd_ncols := 2;
                 nd_rows := [[PyStr "a"; PyStr "good"]; [PyStr "b"; PyStr "bad"]] |}
              AttributeError eq_refl eq_refl eq_refl)
    as (Hraise & _ & Hmodel & _ & _ & Hlabels & _).
  split; [exact Hraise|]. split; [exact Hmodel | exact Hlabels].
Defined.

Lemma trainer_error_propagates_witness :
  let out := @fit Sample.failing_env Sample.X_array Sample.y_flat 7
               (FirstColFtClassifier ∅, Sample.no_world) in
  snd out = Raise (TrainerError "cannot open the training file") /\
  model (fst (fst out)) = None /\
  length (trainer_calls (snd (fst out))) = 1%nat.
Proof.
  destruct (@trainer_error_propagates Sample.failing_env
              (FirstColFtClassifier ∅) Sample.no_world
              Sample.X_array Sample.y_flat 7
              {| nd_dtype := dt_object; nd_ncols := 2;
                 nd_rows := [[PyStr "a"; PyStr "good"]; [PyStr "b"; PyStr "bad"]] |}
              (Values [PyStr "a"; PyStr "b"])
              (TrainerError "cannot open the training file")
              eq_refl eq_refl eq_refl (lookup_delete_eq _ _) eq_refl)
    as (Hraise & Hmodel & _ & Hcalls).
  split; [exact Hraise|]. split; [exact Hmodel|].
  cbv zeta. by rewrite Hcalls.
Defined.

Lemma failed_fit_stays_unfitted_witness :
  @predict Sample.env
    (fst (fst (@fit Sample.env Sample.X_array Sample.y_matrix 7
                 (FirstColFtClassifier ∅, Sample.no_world))))
    Sample.X_array
  = Raise NotFittedError.
Proof.
  apply (@failed_fit_stays_unfitted Sample.env (FirstColFtClassifier ∅)
           Sample.no_world Sample.X_array Sample.X_array Sample.y_matrix 7
           ValueError eq_refl).
  rewrite fit_cases. reflexivity.
Defined.

Lemma base_classes_forward_options_witness :
  exists args,
    trainer_calls
      (snd (fst (@fit Sample.env Sample.X_array Sample.y_flat 7
                   (FirstColFtClassifier {["epoch" := PyInt 5]}, Sample.no_world))))
      = [args] /\
    args !! "epoch" = Some (PyInt 5).
Proof.
  destruct (@base_classes_forward_options Sample.env FirstCol
              {["epoch" := PyInt 5]} Sample.X_array Sample.y_flat 7
              Sample.no_world (or_introl eq_refl))
    as (args & Hcalls & _ & Hother).
  - rewrite fit_cases. cbn [construct FirstColFtClassifier FtClassifierABC_init kwargs].
    rewrite bool_decide_eq_false_2
      by (rewrite lookup_delete_eq; intros [? ?]; discriminate).
    reflexivity.
  - exists args. split; [exact Hcalls|].
    rewrite Hother by discriminate. apply lookup_singleton_eq.
Defined.

Lemma clean_label_ignores_prefix_witness :
  _clean_label ("not_label" ++ "42") = Ok 42.
Proof.
  rewrite (clean_label_ignores_prefix "not_label" "42" eq_refl). reflexivity.
Defined.

Lemma clean_label_short_label_witness :
  _clean_label "__label__" = Raise ValueError.
Proof.
  apply (clean_label_short_label "__label__"). cbn. lia.
Defined.

Lemma first_obj_extraction_witness :
  _input_col (FirstObjFtClassifier ∅) Sample.X_frame
  = Ok (Values [PyStr "good"; PyStr "bad"; PyStr "good"]).
Proof.
  unfold Sample.X_frame. rewrite (first_obj_extraction ∅).
  - reflexivity.
  - split.
    + cbn. apply NoDup_cons. split.
      * rewrite list_elem_of_singleton. discriminate.
      * apply NoDup_singleton.
    + repeat constructor.
Defined.

Lemma predict_rejects_bad_dtype_witness :
  @predict Sample.env (Sample.fitted FirstCol Sample.two_class_model)
    Sample.X_text_array = Raise ValueError /\
  @predict_proba Sample.env (Sample.fitted FirstCol Sample.two_class_model)
    Sample.X_text_array = Raise ValueError.
Proof.
  apply (@predict_rejects_bad_dtype Sample.env
           (Sample.fitted FirstCol Sample.two_class_model)
           Sample.two_class_model 2 Sample.X_text_array eq_refl eq_refl);
    cbn; discriminate.
Defined.

Lemma model_error_propagates_witness :
  @predict Sample.env (Sample.fitted (IdxBased 1) Sample.strict_model)
    Sample.X_mixed = Raise AttributeError.
Proof.
  apply (@model_error_propagates Sample.env
           (Sample.fitted (IdxBased 1) Sample.strict_model) Sample.strict_model
           Sample.X_mixed
           {| nd_dtype := dt_object; nd_ncols := 2;
              nd_rows := [[PyStr "a"; PyStr "good"]; [PyStr "b"; PyInt 3]] |}
           (Values [PyStr "good"; PyInt 3])
           [PyStr "good"] [] (PyInt 3) AttributeError
           eq_refl eq_refl eq_refl eq_refl).
  - constructor; [|constructor]. eexists. reflexivity.
  - reflexivity.
Defined.

Lemma predict_empty_table_witness :
  @predict Sample.env (Sample.fitted FirstCol Sample.two_class_model)
    Sample.X_no_rows = Ok [] /\
  @predict_proba Sample.env (Sample.fitted FirstCol Sample.two_class_model)
    Sample.X_no_rows = Ok [].
Proof.
  apply (@predict_empty_table Sample.env
           (Sample.fitted FirstCol Sample.two_class_model)
           Sample.two_class_model 2 Sample.X_no_rows
           {| nd_dtype := dt_object; nd_ncols := 2; nd_rows := [] |}
           (Values []) eq_refl eq_refl eq_refl eq_refl eq_refl).
Defined.

Lemma predict_values_seen_in_fit_witness :
  let fitted :=
    fst (fst (@fit Sample.env Sample.X_array Sample.y_flat 7
                (IdxBasedFtClassifier 1 ∅, Sample.no_world))) in
  exists ys,
    @predict Sample.env fitted Sample.X_array = Ok ys /\
    Forall (fun n => n ∈ [1; 0]) ys.
Proof.
  intros fitted.
  apply (@predict_values_seen_in_fit Sample.env
           (IdxBasedFtClassifier 1 ∅) fitted Sample.no_world
           (snd (fst (@fit Sample.env Sample.X_array Sample.y_flat 7
                        (IdxBasedFtClassifier 1 ∅, Sample.no_world))))
           Sample.X_array Sample.X_array Sample.y_flat 7
           {| nd_dtype := dt_object; nd_ncols := 2;
              nd_rows := [[PyStr "a"; PyStr "good"]; [PyStr "b"; PyStr "bad"]] |}
           (Values [PyStr "good"; PyStr "bad"])
           eq_refl eq_refl eq_refl).
  intros m text Hm Hin.
  assert (Some m = Some Sample.two_class_model) as [= ->]
    by (rewrite <- Hm; reflexivity).
  cbn in Hin. apply elem_of_cons in Hin as [-> | Hin].
  - exists [label_of 1], [9 # 10]%Q, (label_of 1).
    split; [reflexivity|]. split; [reflexivity|]. right. left.
  - apply list_elem_of_singleton in Hin. subst text.
    exists [label_of 0], [8 # 10]%Q, (label_of 0).
    split; [reflexivity|]. split; [reflexivity|]. left.
Defined.

Lemma format_probas_permutes_scores_witness :
  _format_probas (Sample.fitted FirstCol Sample.two_class_model)
    ([label_of 1; label_of 0], [9 # 10; 1 # 10]%Q)
  = Ok [1 # 10; 9 # 10]%Q /\
  [1 # 10; 9 # 10]%Q ≡ₚ [9 # 10; 1 # 10]%Q.
Proof.
  split; [reflexivity|].
  apply (format_probas_permutes_scores
           (Sample.fitted FirstCol Sample.two_class_model)
           ([label_of 1; label_of 0], [9 # 10; 1 # 10]%Q)
           [1 # 10; 9 # 10]%Q).
  reflexivity.
Defined.

Lemma format_probas_keeps_registry_order_witness :
  _format_probas (Sample.fitted FirstCol Sample.two_class_model)
    ([label_of 0; label_of 1], [8 # 10; 2 # 10]%Q)
  = Ok [8 # 10; 2 # 10]%Q.
Proof.
  apply (format_probas_keeps_registry_order
           (Sample.fitted FirstCol Sample.two_class_model)
           [label_of 0; label_of 1] [label_of 0; label_of 1]
           [8 # 10; 2 # 10]%Q eq_refl).
  - repeat constructor.
  - change (position [label_of 0; label_of 1] <$> [label_of 0; label_of 1])
      with [0%nat; 1%nat].
    repeat constructor.
  - reflexivity.
Defined.

Lemma fit_registry_decodes_witness :
  let fitted :=
    fst (fst (@fit Sample.env Sample.X_frame Sample.y_frame 7
                (ColLblBasedFtClassifier "text" ∅, Sample.no_world))) in
  exists classes registry,
    classes_ fitted = Some classes /\ class_labels_ fitted = Some registry /\
    num_classes_ fitted = Some (length registry) /\
    NoDup registry /\
    (length registry <= 3)%nat /\
    rmap _clean_label registry = Ok classes.
Proof.
  intros fitted.
  apply (@fit_registry_decodes Sample.env
           (ColLblBasedFtClassifier "text" ∅) fitted Sample.no_world
           (snd (fst (@fit Sample.env Sample.X_frame Sample.y_frame 7
                        (ColLblBasedFtClassifier "text" ∅, Sample.no_world))))
           Sample.X_frame Sample.y_frame 7).
  rewrite fit_cases. reflexivity.
Defined.

(** ** A column labelled [dtype] *)

(** A DataFrame with a column labelled ['dtype'] is refused by [fit] with
    [ValueError], whatever its element type, and [self] and the world stay
    as they were; on a fitted adapter [predict] refuses it the same way. *)
Theorem frame_with_dtype_column_is_refused `{External}
    (df : dataframe) (a : adapter) (m : Model) (w : world) (y : labels) (rnd : Z) :
  PyStr "dtype" ∈ col_label <$> df_columns df ->
  model a = Some m ->
  fit (DataFrame df) y rnd (a, w) = ((a, w), Raise ValueError) /\
  predict a (DataFrame df) = Raise ValueError.
Proof.
  intros Hcol Hm.
  assert (Hx : _validate_x (DataFrame df) = Raise ValueError).
  { apply validate_x_shadowed. cbn. by apply bool_decide_eq_true_2. }
  split.
  - by rewrite fit_cases, Hx.
  - unfold predict, _predict, check_is_fitted. by rewrite Hm, Hx.
Qed.

Lemma frame_with_dtype_column_is_refused_witness :
  @fit Sample.env Sample.X_dtype_frame Sample.y_flat 7
     (Sample.fitted FirstObj Sample.two_class_model, Sample.no_world)
  = ((Sample.fitted FirstObj Sample.two_class_model, Sample.no_world),
     Raise ValueError) /\
  @predict Sample.env (Sample.fitted FirstObj Sample.two_class_model)
    Sample.X_dtype_frame = Raise ValueError.
Proof.
  apply (@frame_with_dtype_column_is_refused Sample.env
           {| df_nrows := 2;
              df_columns :=
                [ {| col_label := PyStr "dtype"; col_dtype := dt_object;
                     col_values := [PyStr "good"; PyStr "bad"] |} ] |}
           (Sample.fitted FirstObj Sample.two_class_model)
           Sample.two_class_model Sample.no_world Sample.y_flat 7).
  - cbn. left.
  - reflexivity.
Defined.
